(** * Digilib: download authorization workflow and upload classification pipeline

    A shallow embedding of the request handlers of [server.js] that make up
    the download-authorization workflow ([/request-download],
    [/admin/download-action], [/download], [/request-status], [/view],
    [/delete]) and the upload pipeline ([/upload]), over the relational
    schema of [setup-database.js].

    Conventions of the model.
    - A JavaScript number is modelled by its exact value: [NaN], the two
      infinities, or a rational.  Rounding to binary64 and the sign of zero
      are not modelled; [Math.min] and [Math.max] only select one of their
      arguments, so they commute with rounding.
    - A handler is a computation in a state-and-exception monad over a
      [world]: the database, the clock read by [NOW()], the answers of the
      network (object storage, classifier) and a schedule of database
      outages.  A statement that raises leaves the earlier statements of the
      same handler in place: no handler opens a transaction.
    - Route parameters [:id] are integers; timestamps are clock readings.
    - The schema is the one of [setup-database.js]: every [pdf_id] is a
      foreign key with [ON DELETE CASCADE], [cluster] and [course] are
      [INT], [confidence] is [FLOAT]. *)

From Stdlib Require Import ZArith List String Ascii Bool Lia.
From Stdlib Require Import QArith Qcanon Lqa.
Import ListNotations.

Local Open Scope Z_scope.
Local Open Scope string_scope.

Set Implicit Arguments.

(* ===================================================================== *)
(** * JavaScript numbers and values *)
(* ===================================================================== *)

Module JS.

Inductive number :=
| NaN
| NegInf
| Fin (q : Qc)
| PosInf.

Definition of_Z (z : Z) : number := Fin (Q2Qc (inject_Z z)).

(** [a <= b] on numbers; every comparison with [NaN] is false. *)
Definition leb (a b : number) : bool :=
  match a, b with
  | NaN, _ | _, NaN => false
  | NegInf, _ => true
  | _, PosInf => true
  | Fin x, Fin y => Qle_bool x y
  | Fin _, NegInf | PosInf, NegInf | PosInf, Fin _ => false
  end.

(** [Math.min(a, b)] and [Math.max(a, b)] on two numbers: [NaN] if either
    argument is [NaN], otherwise the smaller (larger) argument. *)
Definition Math_min (a b : number) : number :=
  match a, b with
  | NaN, _ | _, NaN => NaN
  | _, _ => if leb a b then a else b
  end.

Definition Math_max (a b : number) : number :=
  match a, b with
  | NaN, _ | _, NaN => NaN
  | _, _ => if leb a b then b else a
  end.

(** Values produced by [JSON.parse], plus [undefined] for an absent
    property. *)
#[warnings="-register-all"]
Inductive value :=
| JUndefined
| JNull
| JBool (b : bool)
| JNumber (n : number)
| JString (s : string)
| JArray (items : list value)
| JObject (fields : list (string * value)).

(** Property read [v.k].  [JSON.parse] keeps the last of several equal
    keys; a primitive or an array has none of the three properties the
    upload handler reads. *)
Fixpoint lookup (k : string) (fields : list (string * value)) : value :=
  match fields with
  | [] => JUndefined
  | (k', v) :: rest =>
      match lookup k rest with
      | JUndefined => if String.eqb k k' then v else JUndefined
      | later => later
      end
  end.

Definition get (v : value) (k : string) : value :=
  match v with
  | JObject fields => lookup k fields
  | _ => JUndefined
  end.

(** [ToBoolean]. *)
Definition truthy (v : value) : bool :=
  match v with
  | JUndefined | JNull => false
  | JBool b => b
  | JNumber NaN => false
  | JNumber (Fin q) => negb (Qeq_bool q 0)
  | JNumber _ => true
  | JString s => negb (String.eqb s EmptyString)
  | JArray _ | JObject _ => true
  end.

(** [a || b]. *)
Definition or_else (a b : value) : value := if truthy a then a else b.

(** [a && b]. *)
Definition and_then (a b : value) : value := if truthy a then b else a.

(** [a === true] and [a !== undefined]. *)
Definition is_true (v : value) : bool :=
  match v with JBool true => true | _ => false end.

Definition is_defined (v : value) : bool :=
  match v with JUndefined => false | _ => true end.

(** The conversion of an object to a primitive raises a [TypeError] when
    the object has an own property [toString]: no value of a JSON body is
    callable.  An array converts every element it joins. *)
Fixpoint raises_on_conversion (v : value) : bool :=
  match v with
  | JObject fields =>
      existsb (fun kv => String.eqb (fst kv) "toString") fields
  | JArray items => existsb raises_on_conversion items
  | _ => false
  end.

Section Coercion.

(** [StringToNumber] is the numeric-literal grammar of the language; it is
    not part of this repository. *)
Variable StringToNumber : string -> number.

(** [ToNumber] of a value whose conversion does not raise.  An array
    converts through the string that joins its elements: empty for [[]],
    the element's own string for a singleton, and a string with a comma,
    which is no numeric literal, otherwise.  A plain object converts
    through ["[object Object]"]. *)
Fixpoint ToNumber (v : value) : number :=
  match v with
  | JUndefined => NaN
  | JNull => of_Z 0
  | JBool true => of_Z 1
  | JBool false => of_Z 0
  | JNumber n => n
  | JString s => StringToNumber s
  | JArray [] => of_Z 0
  | JArray [x] =>
      match x with
      | JUndefined | JNull => of_Z 0
      | JBool _ | JObject _ => NaN
      | _ => ToNumber x
      end
  | JArray (_ :: _ :: _) => NaN
  | JObject _ => NaN
  end.

End Coercion.

End JS.

Import JS.

(* ===================================================================== *)
(** * The classification clamp (server.js, step 6 of [/upload]) *)
(* ===================================================================== *)

Definition q_min_confidence : Qc := Q2Qc (1 # 10).
Definition q_one : Qc := Q2Qc 1.
Definition q_half : Qc := Q2Qc (1 # 2).
Definition q_default_confidence : Qc := Q2Qc (78 # 100).

(** [clusterIndex = Math.max(0, Math.min(5, clusterIndex))] *)
Definition clamp_cluster (clusterIndex : number) : number :=
  Math_max (of_Z 0) (Math_min (of_Z 5) clusterIndex).

(** [confidence = Math.max(0.1, Math.min(1.0, confidence))] *)
Definition clamp_confidence (confidence : number) : number :=
  Math_max (Fin q_min_confidence) (Math_min (Fin q_one) confidence).

Definition clamp (p : number * number) : number * number :=
  (clamp_cluster (fst p), clamp_confidence (snd p)).

(** The closed ranges the clamp aims at. *)
Definition between (lo hi : Qc) (n : number) : Prop :=
  match n with
  | Fin q => (lo <= q)%Qc /\ (q <= hi)%Qc
  | _ => False
  end.

Definition valid_cluster (n : number) : Prop := between (Q2Qc 0) (Q2Qc 5) n.
Definition valid_confidence (n : number) : Prop := between q_min_confidence q_one n.

(* ===================================================================== *)
(** * Relational store (setup-database.js) *)
(* ===================================================================== *)

(** A table with a [SERIAL PRIMARY KEY]: its rows in storage order and the
    state of its sequence. *)
Record table (R : Type) := { rows : list R; next_id : Z }.

Definition empty_table (R : Type) : table R := {| rows := []; next_id := 1 |}.

(** [INSERT]: the row receives the next value of the sequence.  (An
    insert that the schema rejects leaves the sequence alone here; no
    property below depends on the values a sequence skips.) *)
Definition append (R : Type) (mk : Z -> R) (t : table R) : table R :=
  {| rows := rows t ++ [mk (next_id t)]; next_id := next_id t + 1 |}.

(** [DELETE ... WHERE gone] and [UPDATE ... SET] keep the sequence. *)
Definition remove (R : Type) (gone : R -> bool) (t : table R) : table R :=
  {| rows := filter (fun r => negb (gone r)) (rows t); next_id := next_id t |}.

Definition update (R : Type) (f : R -> R) (t : table R) : table R :=
  {| rows := map f (rows t); next_id := next_id t |}.

(** [pdfs] *)
Record pdf := {
  pdf_id : Z;
  title : string;
  cluster : Z;
  url : string;
  is_private : bool;
  uploader : string;
  confidence : number;
  uploaded_at : Z
}.

(** [favorites], with [UNIQUE(username, pdf_id)] *)
Record favorite := {
  fav_id : Z;
  fav_username : string;
  fav_pdf_id : Z;
  fav_created_at : Z
}.

(** [recently_viewed] *)
Record recently_viewed_row := {
  rv_id : Z;
  rv_username : string;
  rv_pdf_id : Z;
  viewed_at : Z
}.

(** [download_requests]; [status] is a nullable [VARCHAR] whose default is
    ['pending'], [responded_at] is null until an admin decides. *)
Record download_request := {
  dr_id : Z;
  dr_pdf_id : Z;
  dr_username : string;
  status : option string;
  requested_at : Z;
  responded_at : option Z
}.

(** [download_history] *)
Record download_history_row := {
  dh_id : Z;
  dh_pdf_id : Z;
  dh_username : string;
  downloaded_at : Z
}.

(** [search_history] *)
Record search_history_row := {
  sh_id : Z;
  sh_username : string;
  sh_query : string;
  searched_at : Z
}.

(** [upload_history] *)
Record upload_history_row := {
  uh_id : Z;
  uh_title : string;
  uh_course : Z;
  uploaded_by : string;
  uh_uploaded_at : Z
}.

Record database := {
  pdfs : table pdf;
  favorites : table favorite;
  recently_viewed : table recently_viewed_row;
  download_requests : table download_request;
  download_history : table download_history_row;
  search_history : table search_history_row;
  upload_history : table upload_history_row
}.

Definition empty_database : database := {|
  pdfs := empty_table pdf;
  favorites := empty_table favorite;
  recently_viewed := empty_table recently_viewed_row;
  download_requests := empty_table download_request;
  download_history := empty_table download_history_row;
  search_history := empty_table search_history_row;
  upload_history := empty_table upload_history_row
|}.

Definition with_pdfs (f : table pdf -> table pdf) (d : database) : database :=
  {| pdfs := f (pdfs d); favorites := favorites d;
     recently_viewed := recently_viewed d;
     download_requests := download_requests d;
     download_history := download_history d;
     search_history := search_history d; upload_history := upload_history d |}.

Definition with_favorites (f : table favorite -> table favorite) (d : database)
  : database :=
  {| pdfs := pdfs d; favorites := f (favorites d);
     recently_viewed := recently_viewed d;
     download_requests := download_requests d;
     download_history := download_history d;
     search_history := search_history d; upload_history := upload_history d |}.

Definition with_recently_viewed
  (f : table recently_viewed_row -> table recently_viewed_row) (d : database)
  : database :=
  {| pdfs := pdfs d; favorites := favorites d;
     recently_viewed := f (recently_viewed d);
     download_requests := download_requests d;
     download_history := download_history d;
     search_history := search_history d; upload_history := upload_history d |}.

Definition with_download_requests
  (f : table download_request -> table download_request) (d : database)
  : database :=
  {| pdfs := pdfs d; favorites := favorites d;
     recently_viewed := recently_viewed d;
     download_requests := f (download_requests d);
     download_history := download_history d;
     search_history := search_history d; upload_history := upload_history d |}.

Definition with_download_history
  (f : table download_history_row -> table download_history_row) (d : database)
  : database :=
  {| pdfs := pdfs d; favorites := favorites d;
     recently_viewed := recently_viewed d;
     download_requests := download_requests d;
     download_history := f (download_history d);
     search_history := search_history d; upload_history := upload_history d |}.

Definition with_search_history
  (f : table search_history_row -> table search_history_row) (d : database)
  : database :=
  {| pdfs := pdfs d; favorites := favorites d;
     recently_viewed := recently_viewed d;
     download_requests := download_requests d;
     download_history := download_history d;
     search_history := f (search_history d); upload_history := upload_history d |}.

Definition with_upload_history
  (f : table upload_history_row -> table upload_history_row) (d : database)
  : database :=
  {| pdfs := pdfs d; favorites := favorites d;
     recently_viewed := recently_viewed d;
     download_requests := download_requests d;
     download_history := download_history d;
     search_history := search_history d; upload_history := f (upload_history d) |}.

(** [FOREIGN KEY (pdf_id) REFERENCES pdfs(id)]: the referenced row exists. *)
Definition pdf_exists (d : database) (id : Z) : bool :=
  existsb (fun p => Z.eqb (pdf_id p) id) (rows (pdfs d)).

(** The value a [INT] column takes from a number sent as a parameter: only
    an integer literal within the 32-bit range is accepted. *)
Definition to_int (n : number) : option Z :=
  match n with
  | Fin q =>
      if Pos.eqb (Qden q) 1
         && Z.leb (- 2 ^ 31) (Qnum q) && Z.ltb (Qnum q) (2 ^ 31)
      then Some (Qnum q) else None
  | _ => None
  end.

(** A statement runs against the database at the time [NOW()] reads; it
    yields rows and the new database, or raises ([None]) when the schema
    rejects it. *)
Definition statement (A : Type) : Type := database -> Z -> option (A * database).

(** [INSERT INTO pdfs(title, cluster, url, is_private, uploader, confidence)
    VALUES($1,$2,$3,$4,$5,$6)] *)
Definition insert_pdf (filename : string) (clusterIndex : number) (path : string)
    (isPrivate : bool) (user : string) (conf : number) : statement unit :=
  fun d now =>
    match to_int clusterIndex with
    | None => None
    | Some c =>
        Some (tt, with_pdfs (append (fun id =>
          {| pdf_id := id; title := filename; cluster := c; url := path;
             is_private := isPrivate; uploader := user; confidence := conf;
             uploaded_at := now |})) d)
    end.

(** [INSERT INTO upload_history(title, course, uploaded_by) VALUES($1,$2,$3)] *)
Definition insert_upload_history (filename : string) (clusterIndex : number)
    (user : string) : statement unit :=
  fun d now =>
    match to_int clusterIndex with
    | None => None
    | Some c =>
        Some (tt, with_upload_history (append (fun id =>
          {| uh_id := id; uh_title := filename; uh_course := c;
             uploaded_by := user; uh_uploaded_at := now |})) d)
    end.

(** [DELETE FROM pdfs WHERE id=$1], with the [ON DELETE CASCADE] of the four
    tables that reference [pdfs(id)]. *)
Definition cascade (id : Z) (d : database) : database :=
  {| pdfs := remove (fun p => Z.eqb (pdf_id p) id) (pdfs d);
     favorites := remove (fun f => Z.eqb (fav_pdf_id f) id) (favorites d);
     recently_viewed :=
       remove (fun v => Z.eqb (rv_pdf_id v) id) (recently_viewed d);
     download_requests :=
       remove (fun r => Z.eqb (dr_pdf_id r) id) (download_requests d);
     download_history :=
       remove (fun h => Z.eqb (dh_pdf_id h) id) (download_history d);
     search_history := search_history d;
     upload_history := upload_history d |}.

Definition delete_pdf (id : Z) : statement unit :=
  fun d _ => Some (tt, cascade id d).

(** [INSERT INTO favorites(username, pdf_id) VALUES($1,$2)] *)
Definition insert_favorite (user : string) (id : Z) : statement unit :=
  fun d now =>
    if pdf_exists d id
       && negb (existsb (fun f => String.eqb (fav_username f) user
                                  && Z.eqb (fav_pdf_id f) id)
                        (rows (favorites d)))
    then Some (tt, with_favorites (append (fun k =>
           {| fav_id := k; fav_username := user; fav_pdf_id := id;
              fav_created_at := now |})) d)
    else None.

(** [DELETE FROM favorites WHERE username=$1 AND pdf_id=$2] *)
Definition delete_favorite (user : string) (id : Z) : statement unit :=
  fun d _ =>
    Some (tt, with_favorites (remove (fun f =>
      String.eqb (fav_username f) user && Z.eqb (fav_pdf_id f) id)) d).

(** [UPDATE pdfs SET cluster=$1 WHERE id=$2] *)
Definition update_cluster (course : number) (id : Z) : statement unit :=
  fun d _ =>
    match to_int course with
    | None => None
    | Some c =>
        Some (tt, with_pdfs (update (fun p =>
          if Z.eqb (pdf_id p) id then
            {| pdf_id := pdf_id p; title := title p; cluster := c;
               url := url p; is_private := is_private p;
               uploader := uploader p; confidence := confidence p;
               uploaded_at := uploaded_at p |}
          else p)) d)
    end.

(** [UPDATE pdfs SET is_private=$1 WHERE id=$2] *)
Definition update_is_private (isPrivate : bool) (id : Z) : statement unit :=
  fun d _ =>
    Some (tt, with_pdfs (update (fun p =>
      if Z.eqb (pdf_id p) id then
        {| pdf_id := pdf_id p; title := title p; cluster := cluster p;
           url := url p; is_private := isPrivate;
           uploader := uploader p; confidence := confidence p;
           uploaded_at := uploaded_at p |}
      else p)) d).

(** [INSERT INTO search_history(username, query) VALUES($1,$2)] *)
Definition insert_search_history (user q : string) : statement unit :=
  fun d now =>
    Some (tt, with_search_history (append (fun id =>
      {| sh_id := id; sh_username := user; sh_query := q;
         searched_at := now |})) d).

(** [INSERT INTO download_requests(pdf_id, username) VALUES($1,$2)] *)
Definition insert_download_request (id : Z) (user : string) : statement unit :=
  fun d now =>
    if pdf_exists d id
    then Some (tt, with_download_requests (append (fun k =>
           {| dr_id := k; dr_pdf_id := id; dr_username := user;
              status := Some "pending"; requested_at := now;
              responded_at := None |})) d)
    else None.

(** [UPDATE download_requests SET status=$1, responded_at=NOW() WHERE id=$2] *)
Definition decide_request (action : option string) (now : Z)
    (r : download_request) : download_request :=
  {| dr_id := dr_id r; dr_pdf_id := dr_pdf_id r; dr_username := dr_username r;
     status := action; requested_at := requested_at r;
     responded_at := Some now |}.

Definition update_request_status (action : option string) (id : Z)
  : statement unit :=
  fun d now =>
    Some (tt, with_download_requests (update (fun r =>
      if Z.eqb (dr_id r) id then decide_request action now r else r)) d).

(** [status = 'accepted']: unknown, hence not selected, on a null status. *)
Definition is_accepted (r : download_request) : bool :=
  match status r with
  | Some s => String.eqb s "accepted"
  | None => false
  end.

Definition for_pair (id : Z) (user : string) (r : download_request) : bool :=
  Z.eqb (dr_pdf_id r) id && String.eqb (dr_username r) user.

(** [SELECT dr.*, p.url, p.title FROM download_requests dr
     JOIN pdfs p ON p.id = dr.pdf_id
     WHERE dr.pdf_id = $1 AND dr.username = $2 AND dr.status = 'accepted'] *)
Definition accepted_join (d : database) (id : Z) (user : string)
  : list (download_request * pdf) :=
  flat_map (fun dr =>
              map (fun p => (dr, p))
                  (filter (fun p => Z.eqb (pdf_id p) (dr_pdf_id dr))
                          (rows (pdfs d))))
           (filter (fun dr => for_pair id user dr && is_accepted dr)
                   (rows (download_requests d))).

Definition select_accepted (id : Z) (user : string)
  : statement (list (download_request * pdf)) :=
  fun d _ => Some (accepted_join d id user, d).

(** [INSERT INTO download_history(pdf_id, username) VALUES($1,$2)] *)
Definition insert_download_history (id : Z) (user : string) : statement unit :=
  fun d now =>
    if pdf_exists d id
    then Some (tt, with_download_history (append (fun k =>
           {| dh_id := k; dh_pdf_id := id; dh_username := user;
              downloaded_at := now |})) d)
    else None.

(** [ORDER BY requested_at DESC]: a stable insertion sort; the order among
    rows of equal timestamp is left open by SQL. *)
Fixpoint insert_desc (r : download_request) (l : list download_request)
  : list download_request :=
  match l with
  | [] => [r]
  | x :: rest =>
      if Z.leb (requested_at x) (requested_at r)
      then r :: l
      else x :: insert_desc r rest
  end.

Definition order_by_requested_at_desc (l : list download_request)
  : list download_request :=
  fold_right insert_desc [] l.

(** [SELECT ... FROM download_requests WHERE pdf_id=$1 AND username=$2
     ORDER BY requested_at DESC LIMIT 1] *)
Definition latest_request (d : database) (id : Z) (user : string)
  : list download_request :=
  firstn 1 (order_by_requested_at_desc
              (filter (for_pair id user) (rows (download_requests d)))).

Definition select_latest_request (id : Z) (user : string)
  : statement (list download_request) :=
  fun d _ => Some (latest_request d id user, d).

(** [SELECT * FROM pdfs WHERE id=$1] *)
Definition select_pdf (id : Z) : statement (list pdf) :=
  fun d _ => Some (filter (fun p => Z.eqb (pdf_id p) id) (rows (pdfs d)), d).

(** [INSERT INTO recently_viewed(username, pdf_id) VALUES($1,$2)] *)
Definition insert_recently_viewed (user : string) (id : Z) : statement unit :=
  fun d now =>
    if pdf_exists d id
    then Some (tt, with_recently_viewed (append (fun k =>
           {| rv_id := k; rv_username := user; rv_pdf_id := id;
              viewed_at := now |})) d)
    else None.

(** A [SELECT] whose rows only feed the rendered page. *)
Definition select_for_page : statement unit := fun d _ => Some (tt, d).

(* ===================================================================== *)
(** * The world of a handler and its monad *)
(* ===================================================================== *)

Definition bytes := list Byte.byte.

(** What [await fetch(...)] and the read of the body give: the call
    rejects (connection refused, time-out, DNS), or a response arrives with
    a status and a body that is read ([arrayBuffer()], [json()]) or whose
    read rejects (malformed JSON, broken stream).  A call that never
    settles is outside the model. *)
Inductive fetched (B : Type) :=
| Rejected
| Response (http_status : Z) (body : option B).

Arguments Rejected {B}.

(** [response.ok] *)
Definition ok (http_status : Z) : bool :=
  Z.leb 200 http_status && Z.leb http_status 299.

Record world := {
  db : database;
  clock : Z;
  (** one entry per statement still to be sent: [true] when the statement
      raises for a reason outside the schema (connection lost, pool
      exhausted, column width); no entry left means no such failure *)
  outages : list bool;
  (** object storage, by locator *)
  storage : string -> fetched bytes;
  (** the classifier endpoint, by the bytes posted to it *)
  classifier : bytes -> fetched value
}.

Definition with_db (d : database) (os : list bool) (w : world) : world :=
  {| db := d; clock := clock w; outages := os;
     storage := storage w; classifier := classifier w |}.

Inductive outcome (A : Type) :=
| Returned (a : A)
| Raised.

Arguments Raised {A}.

Definition M (A : Type) : Type := world -> outcome A * world.

Definition ret (A : Type) (a : A) : M A := fun w => (Returned a, w).

Definition bind (A B : Type) (c : M A) (k : A -> M B) : M B :=
  fun w =>
    match c w with
    | (Returned a, w') => k a w'
    | (Raised, w') => (Raised, w')
    end.

Definition raise (A : Type) : M A := fun w => (Raised, w).

Arguments raise {A}.

(** [try { c } catch (e) { handler }] *)
Definition try_catch (A : Type) (c handler : M A) : M A :=
  fun w =>
    match c w with
    | (Returned a, w') => (Returned a, w')
    | (Raised, w') => handler w'
    end.

Declare Scope handler_scope.
Delimit Scope handler_scope with handler.
Notation "x <- c ;; k" := (bind c (fun x => k))
  (at level 100, c at next level, right associativity) : handler_scope.
Notation "c ;; k" := (bind c (fun _ => k))
  (at level 100, right associativity) : handler_scope.
Local Open Scope handler_scope.

(** [await pool.query(...)] *)
Definition pool_query (A : Type) (s : statement A) : M A :=
  fun w =>
    match outages w with
    | true :: rest => (Raised, with_db (db w) rest w)
    | _ =>
        match s (db w) (clock w) with
        | Some (a, d) => (Returned a, with_db d (tl (outages w)) w)
        | None => (Raised, with_db (db w) (tl (outages w)) w)
        end
    end.

(** [await fetch(url)] against object storage: the status and a handle on
    the body. *)
Definition fetch (url : string) : M (Z * option bytes) :=
  fun w =>
    match storage w url with
    | Rejected => (Raised, w)
    | Response st b => (Returned (st, b), w)
    end.

(** [await fetch(ML_API_URL, { method: 'POST', body: formData })] *)
Definition fetch_classifier (pdfBuffer : bytes) : M (Z * option value) :=
  fun w =>
    match classifier w pdfBuffer with
    | Rejected => (Raised, w)
    | Response st b => (Returned (st, b), w)
    end.

(** [await response.arrayBuffer()], [await response.json()] *)
Definition read_body (B : Type) (body : option B) : M B :=
  match body with
  | Some b => ret b
  | None => raise
  end.

(** What the client receives. *)
Inductive response :=
| Redirect (location : string)
| RedirectId (prefix : string) (id : Z)   (* [res.redirect(prefix + req.params.id)] *)
| Send (text : string)
| SendFile (content_disposition content_type : string) (body : bytes)
| Json (body : value)
| Render (view : string).

(** A request is served: the response the handler sent, or none when its
    promise rejected outside every [try]. *)
Definition serve (h : M response) (w : world) : option response * world :=
  match h w with
  | (Returned r, w') => (Some r, w')
  | (Raised, w') => (None, w')
  end.

(* ===================================================================== *)
(** * Middleware *)
(* ===================================================================== *)

(** [req.session]: both fields are undefined before login. *)
Record session := { user : option string; role : option string }.

(** [requireLogin]; the continuation receives [req.session.user]. *)
Definition requireLogin (s : session) (next : string -> M response) : M response :=
  match user s with
  | Some u => if String.eqb u EmptyString then ret (Redirect "/login") else next u
  | None => ret (Redirect "/login")
  end.

Definition is_admin_role (s : session) : bool :=
  match role s with
  | Some r => String.eqb r "admin"
  | None => false
  end.

(** [isAdmin] *)
Definition isAdmin (s : session) (next : M response) : M response :=
  match user s with
  | Some u =>
      if String.eqb u EmptyString || negb (is_admin_role s)
      then ret (Redirect "/login") else next
  | None => ret (Redirect "/login")
  end.

(* ===================================================================== *)
(** * Handlers (server.js) *)
(* ===================================================================== *)

(** [req.file] as [multer] leaves it: the locator of the stored binary and
    [path.parse(req.file.originalname).name]. *)
Record uploaded_file := { path : string; name : string }.

Definition clusterNames : list string :=
  ["BSCS"; "BSED-MATH"; "BSES"; "BSHM"; "BTLED-HE"; "BEED"].

(** [clusterNames[clusterIndex]] *)
Definition cluster_name (clusterIndex : number) : value :=
  match to_int clusterIndex with
  | Some z =>
      if Z.leb 0 z then
        match nth_error clusterNames (Z.to_nat z) with
        | Some n => JString n
        | None => JUndefined
        end
      else JUndefined
  | None => JUndefined
  end.

(** [{ success: false, cluster: 0, confidence: 0.78 }] *)
Definition ml_default : value :=
  JObject [("success", JBool false); ("cluster", JNumber (of_Z 0));
           ("confidence", JNumber (Fin q_default_confidence))].

(** Step 4 of [/upload]: the inner [try] around the classifier call. *)
Definition call_classifier (pdfBuffer : bytes) : M value :=
  try_catch
    (response <- fetch_classifier pdfBuffer ;;
     if ok (fst response) then read_body (snd response) else ret ml_default)
    (ret ml_default).

(** Step 5 of [/upload]: the prediction read off [mlResult], as the pair
    ([clusterIndex], [confidence]) before the clamp. *)
Definition prediction (mlResult : value) : value * value :=
  if truthy (and_then mlResult (get mlResult "success")) then
    (or_else (get mlResult "cluster") (JNumber (of_Z 0)),
     or_else (get mlResult "confidence") (JNumber (Fin q_half)))
  else if truthy (and_then mlResult (JBool (is_defined (get mlResult "cluster")))) then
    (get mlResult "cluster",
     or_else (get mlResult "confidence") (JNumber (Fin q_half)))
  else
    (JNumber (of_Z 0), JNumber (Fin q_half)).

Definition is_on (private : option string) : bool :=
  match private with
  | Some v => String.eqb v "on"
  | None => false
  end.

Definition has_path (file : option uploaded_file) : bool :=
  match file with
  | Some f => negb (String.eqb (path f) EmptyString)
  | None => false
  end.

Section Handlers.

Variable StringToNumber : string -> number.

(** A function of [Math] applied to a value: the value is converted to a
    number first, which may raise. *)
Definition Math_of (f : number -> number) (v : value) : M number :=
  if raises_on_conversion v then raise
  else ret (f (ToNumber StringToNumber v)).

(** The body sent by step 8.  [confidence] goes out through [toFixed(2)]
    and a [message] quoting the prediction is added; the model keeps the
    number and leaves that message out. *)
Definition upload_success (filename : string) (clusterIndex conf : number)
    (mlResult : value) : response :=
  Json (JObject
    [("success", JBool true); ("title", JString filename);
     ("cluster", JNumber clusterIndex);
     ("cluster_name", cluster_name clusterIndex);
     ("confidence", JNumber conf);
     ("api_used", and_then mlResult (JBool (is_true (get mlResult "success"))))]).

Definition upload_fallback (filename : string) : response :=
  Json (JObject
    [("success", JBool true); ("title", JString filename);
     ("cluster", JNumber (of_Z 0)); ("cluster_name", JString "BSCS");
     ("confidence", JNumber (Fin q_half)); ("api_used", JBool false);
     ("fallback", JBool true);
     ("message", JString "Uploaded with default values")]).

Definition upload_failed (message : string) : response :=
  Json (JObject [("success", JBool false); ("message", JString message)]).

(** [app.post('/upload', requireLogin, isAdmin, upload.single('pdf'), ...)] *)
Definition upload (s : session) (file : option uploaded_file)
    (private : option string) : M response :=
  requireLogin s (fun u => isAdmin s (
    let isPrivate := is_on private in
    try_catch
      (match file with
       | Some f =>
           if has_path file then
             let filename := name f in
             cloudinaryResponse <- fetch (path f) ;;
             pdfBuffer <- read_body (snd cloudinaryResponse) ;;
             mlResult <- call_classifier pdfBuffer ;;
             let p := prediction mlResult in
             clusterIndex <- Math_of clamp_cluster (fst p) ;;
             conf <- Math_of clamp_confidence (snd p) ;;
             pool_query (insert_pdf filename clusterIndex (path f) isPrivate u conf) ;;
             pool_query (insert_upload_history filename clusterIndex u) ;;
             ret (upload_success filename clusterIndex conf mlResult)
           else ret (upload_failed "No file selected")
       | None => ret (upload_failed "No file selected")
       end)
      (try_catch
         (let filename :=
            match file with Some f => name f | None => "unknown" end in
          let location :=
            match file with Some f => path f | None => EmptyString end in
          pool_query (insert_pdf filename (of_Z 0) location isPrivate u
                                 (Fin q_half)) ;;
          ret (upload_fallback filename))
         (ret (upload_failed "Upload failed completely"))))).

(** [app.post('/delete/:id', requireLogin, isAdmin, ...)] *)
Definition delete (s : session) (id : Z) : M response :=
  requireLogin s (fun _ => isAdmin s (
    pool_query (delete_pdf id) ;;
    ret (Redirect "/admin"))).

(** [app.post('/favorite/:id', requireLogin, ...)] *)
Definition favorite_add (s : session) (id : Z) : M response :=
  requireLogin s (fun u =>
    try_catch (pool_query (insert_favorite u id)) (ret tt) ;;
    ret (RedirectId "/view/" id)).

(** [app.post('/unfavorite/:id', requireLogin, ...)] *)
Definition unfavorite (s : session) (id : Z) : M response :=
  requireLogin s (fun u =>
    pool_query (delete_favorite u id) ;;
    ret (RedirectId "/view/" id)).

(** [app.post('/update-course/:id', requireLogin, isAdmin, ...)];
    [course] is [parseInt(req.body.course)]. *)
Definition update_course (s : session) (course : number) (id : Z) : M response :=
  requireLogin s (fun _ => isAdmin s (
    try_catch
      (pool_query (update_cluster course id) ;;
       ret (Redirect "/admin"))
      (ret (Send "Failed to update course")))).

(** [app.get('/search', requireLogin, ...)] *)
Definition search (s : session) (q : string) : M response :=
  requireLogin s (fun u =>
    pool_query select_for_page ;;
    pool_query (insert_search_history u q) ;;
    ret (Render "results")).

(** [app.post('/request-download/:id', requireLogin, ...)] *)
Definition request_download (s : session) (id : Z) : M response :=
  requireLogin s (fun u =>
    try_catch
      (pool_query (insert_download_request id u) ;;
       ret (RedirectId "/view/" id))
      (ret (Send "Request already sent"))).

(** [app.get('/admin/download-requests', requireLogin, isAdmin, ...)] *)
Definition download_requests_page (s : session) : M response :=
  requireLogin s (fun _ => isAdmin s (
    pool_query select_for_page ;;
    ret (Render "admin-downloads"))).

(** [app.post('/admin/download-action/:id', requireLogin, isAdmin, ...)];
    [action] is [req.body.action], undefined when the form lacks it. *)
Definition download_action (s : session) (action : option string) (id : Z)
  : M response :=
  requireLogin s (fun _ => isAdmin s (
    pool_query (update_request_status action id) ;;
    ret (Redirect "/admin/download-requests"))).

Definition attachment (file_title : string) : string :=
  "attachment; filename=" ++ String (ascii_of_nat 34) file_title
    ++ ".pdf" ++ String (ascii_of_nat 34) EmptyString.

(** [app.get('/download/:id', requireLogin, ...)] *)
Definition download (s : session) (id : Z) : M response :=
  requireLogin s (fun u =>
    try_catch
      (check <- pool_query (select_accepted id u) ;;
       match check with
       | [] => ret (Send "Not allowed")
       | file :: _ =>
           pool_query (insert_download_history id u) ;;
           response <- fetch (url (snd file)) ;;
           if negb (ok (fst response)) then ret (Send "Failed to fetch file")
           else
             buffer <- read_body (snd response) ;;
             ret (SendFile (attachment (title (snd file)))
                           "application/pdf" buffer)
       end)
      (ret (Send "Download failed"))).

(** [{ status: ... }] *)
Definition status_json (st : option string) : response :=
  Json (JObject [("status", match st with Some v => JString v | None => JNull end)]).

(** [app.get('/request-status/:id', requireLogin, ...)] *)
Definition request_status (s : session) (id : Z) : M response :=
  requireLogin s (fun u =>
    result <- pool_query (select_latest_request id u) ;;
    match result with
    | [] => ret (status_json None)
    | r :: _ => ret (status_json (status r))
    end).

(** [app.get('/view/:id', requireLogin, ...)] *)
Definition view (s : session) (id : Z) : M response :=
  requireLogin s (fun u =>
    try_catch
      (result <- pool_query (select_pdf id) ;;
       match result with
       | [] => ret (Send "File not found")
       | file :: _ =>
           if is_private file && negb (is_admin_role s)
           then ret (Send "Access denied")
           else
             pool_query (insert_recently_viewed u (pdf_id file)) ;;
             pool_query select_for_page ;;
             pool_query select_for_page ;;
             pool_query select_for_page ;;
             ret (Render "view")
       end)
      (ret (Send "Error loading file"))).

(** [app.post('/toggle-private/:id', requireLogin, isAdmin, ...)] *)
Definition toggle_private (s : session) (id : Z) : M response :=
  requireLogin s (fun _ => isAdmin s (
    try_catch
      (check <- pool_query (select_pdf id) ;;
       match check with
       | [] => ret (Send "PDF not found")
       | p :: _ =>
           pool_query (update_is_private (negb (is_private p)) id) ;;
           ret (RedirectId "/view-admin/" id)
       end)
      (ret (Send "Failed to update private status")))).

Definition success_json (b : bool) : response :=
  Json (JObject [("success", JBool b)]).

(** [app.post('/user/log-search', requireLogin, ...)]; [query] is absent
    when [req.body.query] is falsy. *)
Definition log_search (s : session) (query : option string) : M response :=
  requireLogin s (fun u =>
    match query with
    | None => ret (success_json false)
    | Some q =>
        pool_query (insert_search_history u q) ;;
        ret (success_json true)
    end).

(** [app.post('/user/log-view', requireLogin, ...)]; [pdf_id] is absent
    when [req.body.pdf_id] is falsy. *)
Definition log_view (s : session) (pdf : option Z) : M response :=
  requireLogin s (fun u =>
    match pdf with
    | None => ret (success_json false)
    | Some id =>
        pool_query (insert_recently_viewed u id) ;;
        ret (success_json true)
    end).

(** The requests that write to the tables above or belong to the download
    workflow.  The remaining routes only read these tables, or write
    [users]. *)
Inductive request :=
| Upload (s : session) (file : option uploaded_file) (private : option string)
| Delete (s : session) (id : Z)
| FavoriteAdd (s : session) (id : Z)
| Unfavorite (s : session) (id : Z)
| UpdateCourse (s : session) (course : number) (id : Z)
| Search (s : session) (q : string)
| RequestDownload (s : session) (id : Z)
| DownloadRequestsPage (s : session)
| DownloadAction (s : session) (action : option string) (id : Z)
| Download (s : session) (id : Z)
| RequestStatus (s : session) (id : Z)
| View (s : session) (id : Z)
| TogglePrivate (s : session) (id : Z)
| LogSearch (s : session) (query : option string)
| LogView (s : session) (pdf : option Z).

Definition handler (r : request) : M response :=
  match r with
  | Upload s file private => upload s file private
  | Delete s id => delete s id
  | FavoriteAdd s id => favorite_add s id
  | Unfavorite s id => unfavorite s id
  | UpdateCourse s course id => update_course s course id
  | Search s q => search s q
  | RequestDownload s id => request_download s id
  | DownloadRequestsPage s => download_requests_page s
  | DownloadAction s action id => download_action s action id
  | Download s id => download s id
  | RequestStatus s id => request_status s id
  | View s id => view s id
  | TogglePrivate s id => toggle_private s id
  | LogSearch s query => log_search s query
  | LogView s pdf => log_view s pdf
  end.

(** The databases the application can be in: the empty schema, then any
    request served in any world around the database reached so far. *)
Inductive reachable : database -> Prop :=
| reachable_empty : reachable empty_database
| reachable_serve : forall (w : world) (r : request),
    reachable (db w) -> reachable (db (snd (serve (handler r) w))).

End Handlers.

(* ===================================================================== *)
(** * Vocabulary of the properties *)
(* ===================================================================== *)

(** The session of a logged-in user [u]: [requireLogin] lets it pass. *)
Definition logged_in (s : session) (u : string) : Prop :=
  user s = Some u /\ u <> EmptyString.

(** The session of the administrator: [isAdmin] lets it pass too. *)
Definition admin (s : session) (u : string) : Prop :=
  logged_in s u /\ role s = Some "admin".

(** At least one request of [u] for document [id] has status accepted. *)
Definition has_accepted (d : database) (id : Z) (u : string) : Prop :=
  exists r, In r (rows (download_requests d)) /\
            dr_pdf_id r = id /\ dr_username r = u /\
            status r = Some "accepted".

(** The [FOREIGN KEY (pdf_id) REFERENCES pdfs(id)] constraints hold. *)
Record referential_integrity (d : database) : Prop := {
  fk_favorites : forall f, In f (rows (favorites d)) ->
    pdf_exists d (fav_pdf_id f) = true;
  fk_recently_viewed : forall v, In v (rows (recently_viewed d)) ->
    pdf_exists d (rv_pdf_id v) = true;
  fk_download_requests : forall r, In r (rows (download_requests d)) ->
    pdf_exists d (dr_pdf_id r) = true;
  fk_download_history : forall h, In h (rows (download_history d)) ->
    pdf_exists d (dh_pdf_id h) = true
}.

(** No row of the four dependent tables references document [id]. *)
Definition unreferenced (d : database) (id : Z) : Prop :=
  (forall f, In f (rows (favorites d)) -> fav_pdf_id f <> id) /\
  (forall v, In v (rows (recently_viewed d)) -> rv_pdf_id v <> id) /\
  (forall r, In r (rows (download_requests d)) -> dr_pdf_id r <> id) /\
  (forall h, In h (rows (download_history d)) -> dh_pdf_id h <> id).





(** The world around database [d] at time [now] in which no statement
    fails for a reason outside the schema. *)
Definition steady (d : database) (now : Z) (st : string -> fetched bytes)
    (cl : bytes -> fetched value) : world :=
  {| db := d; clock := now; outages := []; storage := st; classifier := cl |}.

(** What the response of [/download] is once the gate is passed, by the
    answer of object storage for the document's locator. *)
Definition download_response (answer : fetched bytes) (p : pdf) : response :=
  match answer with
  | Rejected => Send "Download failed"
  | Response st body =>
      if ok st then
        match body with
        | Some buffer => SendFile (attachment (title p)) "application/pdf" buffer
        | None => Send "Download failed"
        end
      else Send "Failed to fetch file"
  end.

(** The database after a [DownloadHistory] record for ([id], [u]) is
    appended at time [now]. *)
Definition log_download (id : Z) (u : string) (now : Z) (d : database)
  : database :=
  with_download_history (append (fun k =>
    {| dh_id := k; dh_pdf_id := id; dh_username := u;
       downloaded_at := now |})) d.

(** The database after a [Document] row, and after an [UploadHistory] row,
    is inserted at time [now]. *)
Definition with_document (filename : string) (c : Z) (location : string)
    (isPrivate : bool) (u : string) (conf : number) (now : Z) (d : database)
  : database :=
  with_pdfs (append (fun id =>
    {| pdf_id := id; title := filename; cluster := c; url := location;
       is_private := isPrivate; uploader := u; confidence := conf;
       uploaded_at := now |})) d.

Definition with_upload_record (filename : string) (c : Z) (u : string)
    (now : Z) (d : database) : database :=
  with_upload_history (append (fun id =>
    {| uh_id := id; uh_title := filename; uh_course := c;
       uploaded_by := u; uh_uploaded_at := now |})) d.

(** A computation keeps a property of the database. *)
Definition preserves (A : Type) (P : database -> Prop) (c : M A) : Prop :=
  forall w, P (db w) -> P (db (snd (c w))).

Definition statement_preserves (A : Type) (P : database -> Prop)
    (s : statement A) : Prop :=
  forall d now a d', P d -> s d now = Some (a, d') -> P d'.




(** The prediction read off [mlResult] converts to numbers without
    raising. *)
Definition convertible (mlResult : value) : Prop :=
  raises_on_conversion (fst (prediction mlResult)) = false /\
  raises_on_conversion (snd (prediction mlResult)) = false.

(** The classification the main path of [/upload] stores for [mlResult]. *)
Definition classified (StringToNumber : string -> number) (mlResult : value)
  : number * number :=
  clamp (ToNumber StringToNumber (fst (prediction mlResult)),
         ToNumber StringToNumber (snd (prediction mlResult))).

(** What [call_classifier] leaves in [mlResult] for an answer of the
    classifier. *)
Definition ml_result (answer : fetched value) : value :=
  match answer with
  | Response st (Some v) => if ok st then v else ml_default
  | _ => ml_default
  end.



(* ===================================================================== *)
(** * Scenarios *)
(* ===================================================================== *)

Module Scenario.

Definition administrator : session :=
  {| user := Some "admin"; role := Some "admin" |}.

Definition alice : session :=
  {| user := Some "alice"; role := Some "user" |}.

(** A private document, number 42. *)
Definition thesis : pdf :=
  {| pdf_id := 42; title := "thesis"; cluster := 0;
     url := "https://storage.example/theses/thesis.pdf"; is_private := true;
     uploader := "admin"; confidence := Fin q_default_confidence;
     uploaded_at := 1 |}.

(** Request 7 of alice for document 42 was accepted; her later request 8
    was rejected. *)
Definition request_7 : download_request :=
  {| dr_id := 7; dr_pdf_id := 42; dr_username := "alice";
     status := Some "accepted"; requested_at := 10; responded_at := Some 11 |}.

Definition request_8 : download_request :=
  {| dr_id := 8; dr_pdf_id := 42; dr_username := "alice";
     status := Some "rejected"; requested_at := 20; responded_at := Some 21 |}.

Definition library : database :=
  {| pdfs := {| rows := [thesis]; next_id := 43 |};
     favorites := empty_table favorite;
     recently_viewed := empty_table recently_viewed_row;
     download_requests := {| rows := [request_7; request_8]; next_id := 9 |};
     download_history := empty_table download_history_row;
     search_history := empty_table search_history_row;
     upload_history := empty_table upload_history_row |}.

Definition binary : bytes := [Byte.x25; Byte.x50; Byte.x44; Byte.x46].

(** Object storage that answers, and object storage that answers 500. *)
Definition storage_ok : string -> fetched bytes :=
  fun _ => Response 200 (Some binary).


(** A classifier that answers 500, one that predicts (9, 1.4), one that
    predicts (2, 0.9), and one that wraps its confidence in an object:
    [{"success": true, "cluster": 2, "confidence": {"value": 0.9}}]. *)
Definition classifier_500 : bytes -> fetched value :=
  fun _ => Response 500 None.

Definition classifier_9_14 : bytes -> fetched value :=
  fun _ => Response 200 (Some (JObject
    [("cluster", JNumber (of_Z 9));
     ("confidence", JNumber (Fin (Q2Qc (14 # 10))))])).

Definition classifier_2_09 : bytes -> fetched value :=
  fun _ => Response 200 (Some (JObject
    [("success", JBool true); ("cluster", JNumber (of_Z 2));
     ("confidence", JNumber (Fin (Q2Qc (9 # 10))))])).

Definition classifier_nested : bytes -> fetched value :=
  fun _ => Response 200 (Some (JObject
    [("success", JBool true); ("cluster", JNumber (of_Z 2));
     ("confidence", JObject [("value", JNumber (Fin (Q2Qc (9 # 10))))])])).

Definition new_file : uploaded_file :=
  {| path := "https://storage.example/theses/new.pdf"; name := "new" |}.

(** None of the scenarios sends a string through [ToNumber]. *)
Definition no_string : string -> number := fun _ => NaN.

End Scenario.

(* ===================================================================== *)
(** * Further routes of server.js *)
(* ===================================================================== *)

Definition inline_disposition (file_title : string) : string :=
  "inline; filename=" ++ String (ascii_of_nat 34) file_title
    ++ ".pdf" ++ String (ascii_of_nat 34) EmptyString.

(** [app.get('/view-admin/:id', requireLogin, isAdmin, ...)].  The query
    for similar documents is skipped when [file.cluster] is null, which no
    insert of the application stores. *)
Definition view_admin (s : session) (id : Z) : M response :=
  requireLogin s (fun _ => isAdmin s (
    try_catch
      (result <- pool_query (select_pdf id) ;;
       match result with
       | [] => ret (Send "File not found")
       | file :: _ =>
           pool_query select_for_page ;;
           ret (Render "view-admin")
       end)
      (ret (Send "Error loading file")))).

(** [app.get('/inline-pdf/:id', requireLogin, isAdmin, ...)] *)
Definition inline_pdf (s : session) (id : Z) : M response :=
  requireLogin s (fun _ => isAdmin s (
    try_catch
      (result <- pool_query (select_pdf id) ;;
       match result with
       | [] => ret (Send "File not found")
       | file :: _ =>
           response <- fetch (url file) ;;
           if negb (ok (fst response)) then ret (Send "Failed to load PDF")
           else
             buffer <- read_body (snd response) ;;
             ret (SendFile (inline_disposition (title file))
                           "application/pdf" buffer)
       end)
      (ret (Send "Error loading PDF")))).

(** [ORDER BY id DESC] on [pdfs]. *)
Fixpoint insert_by_id_desc (p : pdf) (l : list pdf) : list pdf :=
  match l with
  | [] => [p]
  | x :: rest =>
      if Z.leb (pdf_id x) (pdf_id p) then p :: l
      else x :: insert_by_id_desc p rest
  end.

Definition order_by_id_desc (l : list pdf) : list pdf :=
  fold_right insert_by_id_desc [] l.

(** [SELECT * FROM pdfs ORDER BY id DESC] *)
Definition select_all_pdfs : statement (list pdf) :=
  fun d _ => Some (order_by_id_desc (rows (pdfs d)), d).

(** What the two dashboards hand to their templates (the fixed list of
    cluster names apart). *)
Inductive dashboard :=
| Index (username : string) (listed : list pdf) (totalPDFs privatePDFs : nat)
| Admin (all : list pdf) (admin_user : string) (clusterCounts : list nat).

(** [app.get('/', requireLogin, ...)]: the user dashboard, or the redirect
    of the administrator to [/admin]. *)
Definition home (s : session) : M (response + dashboard) :=
  match user s with
  | Some u =>
      if String.eqb u EmptyString then ret (inl (Redirect "/login"))
      else if is_admin_role s then ret (inl (Redirect "/admin"))
      else
        pdfsResult <- pool_query select_all_pdfs ;;
        let listed := filter (fun p => negb (is_private p)) pdfsResult in
        ret (inr (Index u listed (List.length listed)
                        (List.length (filter is_private pdfsResult))))
  | None => ret (inl (Redirect "/login"))
  end.

(** [clusters.map((c,i) => pdfs.filter(p => p.cluster == i).length)] *)
Definition cluster_counts (all : list pdf) : list nat :=
  map (fun i => List.length (filter (fun p => Z.eqb (cluster p) (Z.of_nat i)) all))
      (seq 0 (List.length clusterNames)).

(** [app.get('/admin', requireLogin, isAdmin, ...)] *)
Definition admin_dashboard (s : session) : M (response + dashboard) :=
  match user s with
  | Some u =>
      if String.eqb u EmptyString || negb (is_admin_role s)
      then ret (inl (Redirect "/login"))
      else
        pdfsResult <- pool_query select_all_pdfs ;;
        ret (inr (Admin pdfsResult u (cluster_counts pdfsResult)))
  | None => ret (inl (Redirect "/login"))
  end.

(* ===================================================================== *)
(** * Accounts (server.js, login and register) *)
(* ===================================================================== *)

(** [users], with [UNIQUE] on [username]. *)
Record user_row := {
  user_id : Z;
  username : string;
  password : string;
  created_at : Z
}.

(** What the login and register pages answer: a redirect, or the page
    again with its error. *)
Inductive account_response :=
| Go (location : string)
| Page (view : string) (error : string).

Section Accounts.

(** [bcrypt.hash(password, 10)] draws a salt; [bcrypt.compare] checks a
    password against a stored hash.  Both belong to the [bcryptjs]
    package. *)
Variable bcrypt_hash : string -> string -> string.
Variable bcrypt_compare : string -> string -> bool.

(** [app.post('/login', ...)]: [reached] tells whether the query went
    through; the session is the one of the request, updated on success. *)
Definition login (users : table user_row) (reached : bool) (s : session)
    (name_given password_given : string) : account_response * session :=
  if reached then
    match filter (fun r => String.eqb (username r) name_given) (rows users) with
    | [] => (Page "login" "Invalid username or password", s)
    | found :: _ =>
        if bcrypt_compare password_given (password found) then
          (Go "/",
           {| user := Some (username found);
              role := Some (if String.eqb (username found) "admin"
                            then "admin" else "user") |})
        else (Page "login" "Invalid username or password", s)
    end
  else (Page "login" "Something went wrong. Please try again.", s).



End Accounts.

(** The same request sent with another session. *)
Definition session_of (r : request) : session :=
  match r with
  | Upload s _ _ | Delete s _ | FavoriteAdd s _ | Unfavorite s _
  | UpdateCourse s _ _ | Search s _ | RequestDownload s _
  | DownloadRequestsPage s | DownloadAction s _ _ | Download s _
  | RequestStatus s _ | View s _ | TogglePrivate s _ | LogSearch s _
  | LogView s _ => s
  end.

(** The routes registered with [isAdmin]. *)
Definition admin_only (r : request) : bool :=
  match r with
  | Upload _ _ _ | Delete _ _ | UpdateCourse _ _ _ | DownloadRequestsPage _
  | DownloadAction _ _ _ | TogglePrivate _ _ => true
  | _ => false
  end.

(** The session did not log in: [req.session.user] is undefined or
    empty. *)
Definition anonymous (s : session) : Prop :=
  user s = None \/ user s = Some EmptyString.

(** The keys of a table are distinct and were drawn from its sequence. *)
Definition keyed (R : Type) (key : R -> Z) (t : table R) : Prop :=
  NoDup (map key (rows t)) /\
  forall r, In r (rows t) -> (key r < next_id t)%Z.

(** Every [SERIAL PRIMARY KEY] of the store is one. *)
Record primary_keys (d : database) : Prop := {
  pk_pdfs : keyed pdf_id (pdfs d);
  pk_favorites : keyed fav_id (favorites d);
  pk_recently_viewed : keyed rv_id (recently_viewed d);
  pk_download_requests : keyed dr_id (download_requests d);
  pk_download_history : keyed dh_id (download_history d);
  pk_search_history : keyed sh_id (search_history d);
  pk_upload_history : keyed uh_id (upload_history d)
}.

(** [UNIQUE(username, pdf_id)] on [favorites]. *)
Definition favorites_unique (d : database) : Prop :=
  NoDup (map (fun f => (fav_username f, fav_pdf_id f)) (rows (favorites d))).

(** The document a query by id returns first. *)
Definition document (d : database) (id : Z) : option pdf :=
  hd_error (filter (fun p => Z.eqb (pdf_id p) id) (rows (pdfs d))).

(** The database after a pending request of [u] for [id] is inserted. *)
Definition with_request (id : Z) (u : string) (now : Z) (d : database)
  : database :=
  with_download_requests (append (fun k =>
    {| dr_id := k; dr_pdf_id := id; dr_username := u;
       status := Some "pending"; requested_at := now;
       responded_at := None |})) d.

(** The database after a view of [id] by [u] is recorded. *)
Definition with_view (id : Z) (u : string) (now : Z) (d : database)
  : database :=
  with_recently_viewed (append (fun k =>
    {| rv_id := k; rv_username := u; rv_pdf_id := id;
       viewed_at := now |})) d.

(** The stored category is one of the six. *)
Definition valid_category (c : Z) : Prop := (0 <= c <= 5)%Z.

(* ===================================================================== *)
(** * The clamp *)
(* ===================================================================== *)

Lemma leb_Fin (x y : Qc) : leb (Fin x) (Fin y) = true <-> (x <= y)%Qc.
Proof. simpl. rewrite Qle_bool_iff. reflexivity. Qed.

Lemma leb_Fin_false (x y : Qc) : leb (Fin x) (Fin y) = false -> (y <= x)%Qc.
Proof.
  intros H. destruct (Qclt_le_dec x y) as [L | L]; [| exact L].
  apply Qclt_le_weak, leb_Fin in L. congruence.
Qed.

Section Clamp.

Variables lo hi : Qc.
Hypothesis lo_le_hi : (lo <= hi)%Qc.

Local Abbreviation clamp_to n := (Math_max (Fin lo) (Math_min (Fin hi) n)).

Lemma lo_hi : Qle_bool lo hi = true.
Proof. apply Qle_bool_iff, lo_le_hi. Qed.

(** Every number except [NaN] lands in the range. *)
Lemma clamp_to_range (n : number) : n <> NaN -> between lo hi (clamp_to n).
Proof.
  intros Hn. unfold Math_min, Math_max.
  destruct n as [| | q |]; try congruence; cbn [leb].
  - split; [apply Qcle_refl | exact lo_le_hi].
  - destruct (Qle_bool hi q) eqn:E; cbn [leb].
    + rewrite lo_hi; cbn.
      split; [exact lo_le_hi | apply Qcle_refl].
    + destruct (Qle_bool lo q) eqn:E2; cbn.
      * split; [apply Qle_bool_iff, E2 | apply leb_Fin_false, E].
      * split; [apply Qcle_refl | exact lo_le_hi].
  - rewrite lo_hi; cbn.
    split; [exact lo_le_hi | apply Qcle_refl].
Qed.

(** [NaN] goes through unchanged. *)
Lemma clamp_to_NaN : clamp_to NaN = NaN.
Proof. reflexivity. Qed.

(** A number of the range is left as it is. *)
Lemma clamp_to_id (n : number) : between lo hi n -> clamp_to n = n.
Proof.
  destruct n as [| | q |]; cbn; try contradiction.
  intros [L H]. unfold Math_min, Math_max; cbn [leb].
  destruct (Qle_bool hi q) eqn:E; cbn [leb].
  - apply Qle_bool_iff in E.
    assert (q = hi) by (apply Qcle_antisym; assumption). subst q.
    now rewrite lo_hi.
  - now rewrite (proj2 (Qle_bool_iff lo q) L).
Qed.

Lemma clamp_to_idempotent (n : number) : clamp_to (clamp_to n) = clamp_to n.
Proof.
  destruct n as [| | q |]; try reflexivity;
    apply clamp_to_id, clamp_to_range; discriminate.
Qed.

End Clamp.

Lemma zero_le_five : (Q2Qc (inject_Z 0) <= Q2Qc (inject_Z 5))%Qc.
Proof. now apply Qle_bool_iff. Qed.

Lemma tenth_le_one : (q_min_confidence <= q_one)%Qc.
Proof. now apply Qle_bool_iff. Qed.

(** The clamp puts every pair of numbers other than [NaN] in range. *)
Lemma clamp_in_range (c f : number) :
  c <> NaN -> f <> NaN ->
  valid_cluster (fst (clamp (c, f))) /\ valid_confidence (snd (clamp (c, f))).
Proof.
  intros Hc Hf. split.
  - exact (clamp_to_range zero_le_five Hc).
  - exact (clamp_to_range tenth_le_one Hf).
Qed.

(** The clamp is the identity on the valid pairs. *)
Lemma clamp_identity (c f : number) :
  valid_cluster c -> valid_confidence f -> clamp (c, f) = (c, f).
Proof.
  intros Hc Hf. unfold clamp; cbn [fst snd]. f_equal.
  - exact (clamp_to_id zero_le_five c Hc).
  - exact (clamp_to_id tenth_le_one f Hf).
Qed.

(** Clamping twice is clamping once. *)
Lemma clamp_idempotent (p : number * number) : clamp (clamp p) = clamp p.
Proof.
  destruct p as [c f]. unfold clamp; cbn [fst snd]. f_equal.
  - exact (clamp_to_idempotent zero_le_five c).
  - exact (clamp_to_idempotent tenth_le_one f).
Qed.

(** Scenario D at the clamp: (9, 1.4) becomes (5, 1.0). *)
Lemma clamp_9_14 :
  clamp (of_Z 9, Fin (Q2Qc (14 # 10))) = (of_Z 5, Fin q_one).
Proof. reflexivity. Qed.

(** [NaN] is no valid confidence, and the clamp returns it. *)
Lemma clamp_confidence_NaN :
  clamp_confidence NaN = NaN /\ ~ valid_confidence (clamp_confidence NaN).
Proof. split; [reflexivity | intros H; exact H]. Qed.

(* ===================================================================== *)
(** * Reasoning about handlers *)
(* ===================================================================== *)

Section Preservation.

Variable P : database -> Prop.

Lemma preserves_ret (A : Type) (a : A) : preserves P (ret a).
Proof. intros w H. exact H. Qed.

Lemma preserves_raise (A : Type) : preserves P (@raise A).
Proof. intros w H. exact H. Qed.

Lemma preserves_bind (A B : Type) (c : M A) (k : A -> M B) :
  preserves P c -> (forall a, preserves P (k a)) -> preserves P (bind c k).
Proof.
  intros Hc Hk w H. unfold bind. specialize (Hc w H).
  destruct (c w) as [[a |] w']; cbn in *; [apply Hk | ]; exact Hc.
Qed.

Lemma preserves_try_catch (A : Type) (c h : M A) :
  preserves P c -> preserves P h -> preserves P (try_catch c h).
Proof.
  intros Hc Hh w H. unfold try_catch. specialize (Hc w H).
  destruct (c w) as [[a |] w']; cbn in *; [| apply Hh]; exact Hc.
Qed.

Lemma preserves_pool_query (A : Type) (s : statement A) :
  statement_preserves P s -> preserves P (pool_query s).
Proof.
  intros Hs w H. unfold pool_query.
  destruct (outages w) as [| [|] rest]; cbn; try exact H;
    destruct (s (db w) (clock w)) as [[a d] |] eqn:E; cbn;
    try exact H; exact (Hs _ _ _ _ H E).
Qed.

Lemma preserves_fetch (locator : string) : preserves P (fetch locator).
Proof. intros w H. unfold fetch. now destruct (storage w locator). Qed.

Lemma preserves_fetch_classifier (b : bytes) :
  preserves P (fetch_classifier b).
Proof. intros w H. unfold fetch_classifier. now destruct (classifier w b). Qed.

Lemma preserves_read_body (B : Type) (body : option B) :
  preserves P (read_body body).
Proof. destruct body; [apply preserves_ret | apply preserves_raise]. Qed.

Lemma preserves_requireLogin (s : session) (next : string -> M response) :
  (forall u, preserves P (next u)) -> preserves P (requireLogin s next).
Proof.
  intros H. unfold requireLogin. destruct (user s) as [u |].
  - destruct (String.eqb u EmptyString); [apply preserves_ret | apply H].
  - apply preserves_ret.
Qed.

Lemma preserves_isAdmin (s : session) (next : M response) :
  preserves P next -> preserves P (isAdmin s next).
Proof.
  intros H. unfold isAdmin. destruct (user s) as [u |].
  - destruct (String.eqb u EmptyString || negb (is_admin_role s));
      [apply preserves_ret | apply H].
  - apply preserves_ret.
Qed.

Lemma preserves_serve (h : M response) (w : world) :
  preserves P h -> P (db w) -> P (db (snd (serve h w))).
Proof.
  intros Hh H. unfold serve. specialize (Hh w H).
  now destruct (h w) as [[r |] w'].
Qed.

End Preservation.

(** Breaks a handler into its statements. *)
Ltac handler_steps :=
  repeat first
    [ apply preserves_requireLogin; intros
    | apply preserves_isAdmin
    | apply preserves_try_catch
    | apply preserves_bind; [ | intros ]
    | apply preserves_ret
    | apply preserves_raise
    | apply preserves_fetch
    | apply preserves_fetch_classifier
    | apply preserves_read_body
    | apply preserves_pool_query
    | match goal with
      | |- preserves _ (match ?x with _ => _ end) => destruct x
      end ].

(** A statement that does not change the database keeps every property. *)
Lemma statement_preserves_query (A : Type) (P : database -> Prop)
    (rows_of : database -> A) :
  statement_preserves P (fun d _ => Some (rows_of d, d)).
Proof. intros d now a d' H E. now inversion E; subst. Qed.

Lemma pdf_exists_iff (d : database) (id : Z) :
  pdf_exists d id = true <-> exists p, In p (rows (pdfs d)) /\ pdf_id p = id.
Proof.
  unfold pdf_exists. rewrite existsb_exists.
  split; intros [p [H1 H2]]; exists p; split; auto;
    [now apply Z.eqb_eq | now apply Z.eqb_eq].
Qed.

Lemma in_append (R : Type) (mk : Z -> R) (t : table R) (x : R) :
  In x (rows (append mk t)) <-> In x (rows t) \/ x = mk (next_id t).
Proof.
  unfold append; cbn. rewrite in_app_iff; cbn. intuition congruence.
Qed.

Lemma in_remove (R : Type) (gone : R -> bool) (t : table R) (x : R) :
  In x (rows (remove gone t)) <-> In x (rows t) /\ gone x = false.
Proof.
  unfold remove; cbn. rewrite filter_In, negb_true_iff. reflexivity.
Qed.

Lemma in_update (R : Type) (f : R -> R) (t : table R) (x : R) :
  In x (rows (update f t)) <-> exists y, In y (rows t) /\ x = f y.
Proof.
  unfold update; cbn. rewrite in_map_iff.
  split; intros [y [H1 H2]]; exists y; auto.
Qed.

(* ===================================================================== *)
(** * Referential integrity is an invariant *)
(* ===================================================================== *)

(** Integrity carries over to a database whose documents include the old
    ones and whose dependent rows are old rows or reference a document. *)
Lemma referential_integrity_step (d d' : database) :
  referential_integrity d ->
  (forall id, pdf_exists d id = true -> pdf_exists d' id = true) ->
  (forall f, In f (rows (favorites d')) ->
     In f (rows (favorites d)) \/ pdf_exists d' (fav_pdf_id f) = true) ->
  (forall v, In v (rows (recently_viewed d')) ->
     In v (rows (recently_viewed d)) \/ pdf_exists d' (rv_pdf_id v) = true) ->
  (forall r, In r (rows (download_requests d')) ->
     (exists r0, In r0 (rows (download_requests d)) /\ dr_pdf_id r0 = dr_pdf_id r)
     \/ pdf_exists d' (dr_pdf_id r) = true) ->
  (forall h, In h (rows (download_history d')) ->
     In h (rows (download_history d)) \/ pdf_exists d' (dh_pdf_id h) = true) ->
  referential_integrity d'.
Proof.
  intros [F V R H] Hp Hf Hv Hr Hh. constructor.
  - intros f I. destruct (Hf f I) as [I0 | E]; auto.
  - intros v I. destruct (Hv v I) as [I0 | E]; auto.
  - intros r I. destruct (Hr r I) as [[r0 [I0 E0]] | E]; auto.
    rewrite <- E0. auto.
  - intros h I. destruct (Hh h I) as [I0 | E]; auto.
Qed.

(** Closes the cases of the tables a statement leaves alone. *)
Ltac fields :=
  cbn [pdfs favorites recently_viewed download_requests download_history
       search_history upload_history with_pdfs with_favorites
       with_recently_viewed with_download_requests with_download_history
       with_search_history with_upload_history].

Ltac integrity_step RI :=
  eapply referential_integrity_step; [exact RI | ..]; fields;
  try solve [ auto | intros x I; first [ now left | left; now exists x ] ].

Lemma pdf_exists_append (d : database) (mk : Z -> pdf) (id : Z) :
  pdf_exists d id = true -> pdf_exists (with_pdfs (append mk) d) id = true.
Proof.
  rewrite !pdf_exists_iff. intros [p [I E]]. exists p. split; [| exact E].
  cbn. apply in_append. now left.
Qed.

Lemma pdf_exists_update (d : database) (f : pdf -> pdf) (id : Z) :
  (forall p, pdf_id (f p) = pdf_id p) ->
  pdf_exists d id = true -> pdf_exists (with_pdfs (update f) d) id = true.
Proof.
  intros Hf. rewrite !pdf_exists_iff. intros [p [I E]]. exists (f p). split.
  - cbn. apply in_update. now exists p.
  - now rewrite Hf.
Qed.

Lemma empty_database_integrity : referential_integrity empty_database.
Proof. constructor; cbn; contradiction. Qed.

Lemma insert_pdf_integrity t c l p u f :
  statement_preserves referential_integrity (insert_pdf t c l p u f).
Proof.
  intros d now a d' RI E. unfold insert_pdf in E.
  destruct (to_int c); inversion E; subst; clear E.
  integrity_step RI.
  intros k. apply pdf_exists_append.
Qed.

Lemma insert_upload_history_integrity t c u :
  statement_preserves referential_integrity (insert_upload_history t c u).
Proof.
  intros d now a d' RI E. unfold insert_upload_history in E.
  destruct (to_int c); inversion E; subst; clear E.
  integrity_step RI.
Qed.

Lemma cascade_unreferenced (id : Z) (d : database) :
  unreferenced (cascade id d) id /\ pdf_exists (cascade id d) id = false.
Proof.
  split.
  - repeat split; intros x I E; apply in_remove in I; destruct I as [_ I];
      apply Z.eqb_neq in I; contradiction.
  - apply not_true_is_false. rewrite pdf_exists_iff. intros [p [Hp Hi]].
    apply in_remove in Hp. destruct Hp as [_ Hp].
    apply Z.eqb_neq in Hp. contradiction.
Qed.

Lemma delete_pdf_integrity id :
  statement_preserves referential_integrity (delete_pdf id).
Proof.
  intros d now a d' [F V R H] E. inversion E; subst; clear E.
  assert (K : forall k, k <> id -> pdf_exists d k = true ->
              pdf_exists (cascade id d) k = true).
  { intros k Hk. rewrite !pdf_exists_iff. intros [p [I Ep]]. exists p.
    split; [| exact Ep]. apply in_remove. split; [exact I |].
    apply Z.eqb_neq. congruence. }
  constructor; intros x I; apply in_remove in I; destruct I as [I N];
    apply Z.eqb_neq in N; apply K; auto.
Qed.

Lemma insert_favorite_integrity u id :
  statement_preserves referential_integrity (insert_favorite u id).
Proof.
  intros d now a d' RI E. unfold insert_favorite in E.
  destruct (pdf_exists d id) eqn:X; cbn in E; [| discriminate].
  destruct (negb _); inversion E; subst; clear E.
  integrity_step RI.
  - intros f I. apply in_append in I. destruct I as [I | ->]; auto.
Qed.

Lemma delete_favorite_integrity u id :
  statement_preserves referential_integrity (delete_favorite u id).
Proof.
  intros d now a d' RI E. inversion E; subst; clear E.
  integrity_step RI.
  - intros f I. apply in_remove in I. tauto.
Qed.

Lemma update_cluster_integrity c id :
  statement_preserves referential_integrity (update_cluster c id).
Proof.
  intros d now a d' RI E. unfold update_cluster in E.
  destruct (to_int c); inversion E; subst; clear E.
  integrity_step RI.
  - intros k. apply pdf_exists_update. intros p. now destruct (Z.eqb _ _).
Qed.

Lemma update_is_private_integrity b id :
  statement_preserves referential_integrity (update_is_private b id).
Proof.
  intros d now a d' RI E. inversion E; subst; clear E.
  integrity_step RI.
  - intros k. apply pdf_exists_update. intros p. now destruct (Z.eqb _ _).
Qed.

Lemma insert_search_history_integrity u q :
  statement_preserves referential_integrity (insert_search_history u q).
Proof.
  intros d now a d' RI E. inversion E; subst; clear E.
  integrity_step RI.
Qed.

Lemma insert_download_request_integrity id u :
  statement_preserves referential_integrity (insert_download_request id u).
Proof.
  intros d now a d' RI E. unfold insert_download_request in E.
  destruct (pdf_exists d id) eqn:X; inversion E; subst; clear E.
  integrity_step RI.
  intros r I. apply in_append in I. destruct I as [I | ->]; auto.
  left. now exists r.
Qed.

Lemma update_request_status_integrity action id :
  statement_preserves referential_integrity (update_request_status action id).
Proof.
  intros d now a d' RI E. inversion E; subst; clear E.
  integrity_step RI.
  intros r I. apply in_update in I. destruct I as [r0 [I ->]].
  left. exists r0. split; [exact I |]. now destruct (Z.eqb _ _).
Qed.

Lemma insert_download_history_integrity id u :
  statement_preserves referential_integrity (insert_download_history id u).
Proof.
  intros d now a d' RI E. unfold insert_download_history in E.
  destruct (pdf_exists d id) eqn:X; inversion E; subst; clear E.
  integrity_step RI.
  - intros h I. apply in_append in I. destruct I as [I | ->]; auto.
Qed.

Lemma insert_recently_viewed_integrity u id :
  statement_preserves referential_integrity (insert_recently_viewed u id).
Proof.
  intros d now a d' RI E. unfold insert_recently_viewed in E.
  destruct (pdf_exists d id) eqn:X; inversion E; subst; clear E.
  integrity_step RI.
  - intros v I. apply in_append in I. destruct I as [I | ->]; auto.
Qed.

Create HintDb integrity.

#[export] Hint Resolve insert_pdf_integrity insert_upload_history_integrity
  delete_pdf_integrity insert_favorite_integrity delete_favorite_integrity
  update_cluster_integrity update_is_private_integrity
  insert_search_history_integrity insert_download_request_integrity
  update_request_status_integrity insert_download_history_integrity
  insert_recently_viewed_integrity statement_preserves_query : integrity.

(** Every handler keeps the foreign keys. *)
Lemma handler_integrity (StringToNumber : string -> number) (r : request) :
  preserves referential_integrity (handler StringToNumber r).
Proof.
  destruct r; cbn [handler];
    unfold upload, delete, favorite_add, unfavorite, update_course, search,
      request_download, download_requests_page, download_action, download,
      request_status, view, toggle_private, log_search, log_view,
      call_classifier, Math_of, select_accepted, select_latest_request,
      select_pdf, select_for_page;
    handler_steps; auto with integrity.
Qed.

(** The foreign keys hold in every database the application reaches. *)
Lemma reachable_integrity (StringToNumber : string -> number) (d : database) :
  reachable StringToNumber d -> referential_integrity d.
Proof.
  induction 1 as [| w r _ IH].
  - exact empty_database_integrity.
  - apply preserves_serve; [apply handler_integrity | exact IH].
Qed.

(* ===================================================================== *)
(** * The download gate *)
(* ===================================================================== *)

Lemma logged_in_requireLogin (s : session) (u : string)
    (next : string -> M response) :
  logged_in s u -> requireLogin s next = next u.
Proof.
  intros [Hu Hne]. unfold requireLogin. rewrite Hu.
  destruct (String.eqb_spec u EmptyString); [contradiction | reflexivity].
Qed.

Lemma admin_isAdmin (s : session) (u : string) (next : M response) :
  admin s u -> isAdmin s next = next.
Proof.
  intros [[Hu Hne] Hr]. unfold isAdmin, is_admin_role. rewrite Hu, Hr.
  destruct (String.eqb_spec u EmptyString); [contradiction | reflexivity].
Qed.

(** The rows of the gate's query are the accepted requests of the pair,
    each joined with the document of that id. *)
Lemma in_accepted_join (d : database) (id : Z) (u : string)
    (r : download_request) (p : pdf) :
  In (r, p) (accepted_join d id u) <->
  In r (rows (download_requests d)) /\ In p (rows (pdfs d)) /\
  pdf_id p = id /\ dr_pdf_id r = id /\ dr_username r = u /\
  status r = Some "accepted".
Proof.
  unfold accepted_join. rewrite in_flat_map. split.
  - intros [r0 [Hr Hp]]. apply in_map_iff in Hp.
    destruct Hp as [p0 [E Hp]]. inversion E; subst; clear E.
    apply filter_In in Hr, Hp. destruct Hr as [Hr Hc], Hp as [Hp Hi].
    apply andb_true_iff in Hc. destruct Hc as [Hc Ha].
    unfold for_pair in Hc. apply andb_true_iff in Hc. destruct Hc as [H1 H2].
    apply Z.eqb_eq in H1, Hi. apply String.eqb_eq in H2.
    unfold is_accepted in Ha. destruct (status r) as [st |]; [| discriminate].
    apply String.eqb_eq in Ha. subst. repeat split; auto; congruence.
  - intros (Hr & Hp & Hi & H1 & H2 & Ha). exists r. split.
    + apply filter_In. split; [exact Hr |]. unfold for_pair, is_accepted.
      rewrite Ha, (proj2 (Z.eqb_eq _ _) H1), (proj2 (String.eqb_eq _ _) H2).
      reflexivity.
    + apply in_map_iff. exists p. split; [reflexivity |].
      apply filter_In. split; [exact Hp |]. apply Z.eqb_eq. congruence.
Qed.

(** Under the foreign keys, the query finds a row exactly when the pair has
    an accepted request. *)
Lemma accepted_join_nonempty (d : database) (id : Z) (u : string) :
  referential_integrity d ->
  (accepted_join d id u <> [] <-> has_accepted d id u).
Proof.
  intros RI. split.
  - destruct (accepted_join d id u) as [| [r p] l] eqn:E; [congruence |].
    intros _. assert (I : In (r, p) (accepted_join d id u))
      by (rewrite E; now left).
    apply in_accepted_join in I. exists r. tauto.
  - intros [r (Hr & H1 & H2 & Ha)] E.
    pose proof (fk_download_requests RI r Hr) as X.
    apply pdf_exists_iff in X. destruct X as [p [Hp Hi]].
    assert (I : In (r, p) (accepted_join d id u)).
    { apply in_accepted_join. repeat split; auto; congruence. }
    rewrite E in I. exact I.
Qed.

Lemma accepted_join_empty (d : database) (id : Z) (u : string) :
  ~ has_accepted d id u -> referential_integrity d -> accepted_join d id u = [].
Proof.
  intros N RI. destruct (accepted_join d id u) eqn:E; [reflexivity |].
  exfalso. apply N, (accepted_join_nonempty id u RI). congruence.
Qed.


(** [/download] in a world without outages: denied when the gate's query
    is empty; otherwise the history record is appended, then storage is
    fetched with the locator of the first row, and its answer decides the
    response. *)
Lemma download_steady (s : session) (u : string) (id : Z) (d : database)
    (now : Z) (st : string -> fetched bytes) (cl : bytes -> fetched value) :
  logged_in s u ->
  serve (download s id) (steady d now st cl) =
  match accepted_join d id u with
  | [] => (Some (Send "Not allowed"), steady d now st cl)
  | (_, p) :: _ =>
      (Some (download_response (st (url p)) p),
       steady (log_download id u now d) now st cl)
  end.
Proof.
  intros L. unfold download. rewrite (logged_in_requireLogin _ L).
  unfold serve, try_catch, bind, pool_query, select_accepted; cbn.
  destruct (accepted_join d id u) as [| [r p] l] eqn:E; [reflexivity |].
  assert (I : In (r, p) (accepted_join d id u)) by (rewrite E; now left).
  apply in_accepted_join in I. destruct I as (_ & Hp & Hi & _).
  assert (X : pdf_exists d id = true)
    by (apply pdf_exists_iff; now exists p).
  unfold insert_download_history, fetch; cbn. rewrite X; cbn.
  unfold download_response, log_download, steady.
  destruct (st (url p)) as [| c [b |]]; cbn; try reflexivity;
    destruct (ok c); reflexivity.
Qed.



(* ===================================================================== *)
(** * The latest-status query *)
(* ===================================================================== *)

Lemma in_insert_desc (r x : download_request) (l : list download_request) :
  In x (insert_desc r l) <-> x = r \/ In x l.
Proof.
  induction l as [| y l IH]; cbn.
  - intuition congruence.
  - destruct (Z.leb (requested_at y) (requested_at r)); cbn.
    + intuition congruence.
    + rewrite IH. intuition congruence.
Qed.

Lemma in_order_by (x : download_request) (l : list download_request) :
  In x (order_by_requested_at_desc l) <-> In x l.
Proof.
  induction l as [| y l IH]; cbn; [reflexivity |].
  rewrite in_insert_desc, IH. intuition congruence.
Qed.




(* ===================================================================== *)
(** * Absent identifiers *)
(* ===================================================================== *)



Lemma accepted_join_no_pdf (d : database) (id : Z) (u : string) :
  pdf_exists d id = false -> accepted_join d id u = [].
Proof.
  intros N. destruct (accepted_join d id u) as [| [r p] l] eqn:E; [reflexivity |].
  assert (I : In (r, p) (accepted_join d id u)) by (rewrite E; now left).
  apply in_accepted_join in I. destruct I as (_ & Hp & Hi & _).
  assert (X : pdf_exists d id = true) by (apply pdf_exists_iff; now exists p).
  congruence.
Qed.


(** An admin decision changes the database in one way only, if at all. *)
Lemma download_action_effect (s : session) (action : option string) (id : Z)
    (w : world) :
  db (snd (serve (download_action s action id) w)) = db w \/
  db (snd (serve (download_action s action id) w))
    = with_download_requests (update (fun r =>
        if Z.eqb (dr_id r) id then decide_request action (clock w) r else r))
        (db w).
Proof.
  unfold download_action, requireLogin, isAdmin.
  destruct (user s) as [u |]; [| now left].
  destruct (String.eqb u EmptyString); cbn [orb]; [now left |].
  destruct (negb (is_admin_role s)); [now left |].
  unfold serve, bind, pool_query, update_request_status.
  destruct (outages w) as [| [|] rest]; cbn; auto.
Qed.


(* ===================================================================== *)
(** * Deletion *)
(* ===================================================================== *)

(** C9: the deletion of a document by the administrator leaves no
    download request, favorite, download-history or view-history row that
    references it, and afterwards the download of that document id is
    answered with 'Not allowed' for every logged-in user. *)
Theorem delete_cascades (s : session) (a : string) (id : Z) (d : database)
    (now : Z) (st : string -> fetched bytes) (cl : bytes -> fetched value) :
  admin s a ->
  let d' := db (snd (serve (delete s id) (steady d now st cl))) in
  unreferenced d' id /\
  forall s' u now' st' cl',
    logged_in s' u ->
    fst (serve (download s' id) (steady d' now' st' cl'))
      = Some (Send "Not allowed").
Proof.
  intros A d'.
  assert (E : d' = cascade id d).
  { unfold d', delete.
    now rewrite (logged_in_requireLogin _ (proj1 A)), (admin_isAdmin _ A). }
  rewrite E. destruct (cascade_unreferenced id d) as [U X].
  split; [exact U |].
  intros s' u now' st' cl' L. rewrite (download_steady _ _ _ _ _ L).
  now rewrite accepted_join_no_pdf.
Qed.

(* ===================================================================== *)
(** * What an admin decision touches *)
(* ===================================================================== *)

(** C10: an admin decision on request id [id] leaves every table but
    [download_requests] as it is; in [download_requests] it keeps the
    rows, their order and the sequence, leaves every row of another id
    untouched and, in a row of that id, changes at most the status and the
    responded timestamp. *)
Theorem decision_frame (s : session) (action : option string) (id : Z)
    (w : world) :
  let d := db w in
  let d' := db (snd (serve (download_action s action id) w)) in
  pdfs d' = pdfs d /\ favorites d' = favorites d /\
  recently_viewed d' = recently_viewed d /\
  download_history d' = download_history d /\
  search_history d' = search_history d /\
  upload_history d' = upload_history d /\
  next_id (download_requests d') = next_id (download_requests d) /\
  exists f : download_request -> download_request,
    rows (download_requests d') = map f (rows (download_requests d)) /\
    forall r,
      (dr_id r <> id -> f r = r) /\
      dr_id (f r) = dr_id r /\ dr_pdf_id (f r) = dr_pdf_id r /\
      dr_username (f r) = dr_username r /\
      requested_at (f r) = requested_at r.
Proof.
  cbn zeta. destruct (download_action_effect s action id w) as [E | E];
    rewrite E; repeat (split; [reflexivity |]).
  - exists (fun r => r). split; [now rewrite map_id | intros r; repeat split].
  - exists (fun r =>
      if Z.eqb (dr_id r) id then decide_request action (clock w) r else r).
    split; [reflexivity |]. intros r.
    destruct (Z.eqb_spec (dr_id r) id); repeat split; congruence.
Qed.

(* ===================================================================== *)
(** * Who changes the status of a request *)
(* ===================================================================== *)

Section KeepsRequest.

Variable x : download_request.

Local Abbreviation kept := (fun d : database => In x (rows (download_requests d))).

(** Closes the case of a statement that appends rows or leaves
    [download_requests] alone. *)
Ltac keeps stmt :=
  intros d now a d' H E; unfold stmt in E;
  repeat match type of E with
         | context [match ?c with _ => _ end] => destruct c
         end;
  inversion E; subst; fields;
  first [ exact H | apply in_append; left; exact H ].

Lemma insert_pdf_keeps t c l p u f : statement_preserves kept (insert_pdf t c l p u f).
Proof. keeps insert_pdf. Qed.

Lemma insert_upload_history_keeps t c u :
  statement_preserves kept (insert_upload_history t c u).
Proof. keeps insert_upload_history. Qed.

Lemma insert_favorite_keeps u id : statement_preserves kept (insert_favorite u id).
Proof. keeps insert_favorite. Qed.

Lemma delete_favorite_keeps u id : statement_preserves kept (delete_favorite u id).
Proof. keeps delete_favorite. Qed.

Lemma update_cluster_keeps c id : statement_preserves kept (update_cluster c id).
Proof. keeps update_cluster. Qed.

Lemma update_is_private_keeps b id :
  statement_preserves kept (update_is_private b id).
Proof. keeps update_is_private. Qed.

Lemma insert_search_history_keeps u q :
  statement_preserves kept (insert_search_history u q).
Proof. keeps insert_search_history. Qed.

Lemma insert_download_request_keeps id u :
  statement_preserves kept (insert_download_request id u).
Proof. keeps insert_download_request. Qed.

Lemma insert_download_history_keeps id u :
  statement_preserves kept (insert_download_history id u).
Proof. keeps insert_download_history. Qed.

Lemma insert_recently_viewed_keeps u id :
  statement_preserves kept (insert_recently_viewed u id).
Proof. keeps insert_recently_viewed. Qed.

(** A decision on another request id keeps the row. *)
Lemma update_request_status_keeps action id :
  id <> dr_id x -> statement_preserves kept (update_request_status action id).
Proof.
  intros N d now a d' H E. inversion E; subst; fields.
  apply in_update. exists x. split; [exact H |].
  destruct (Z.eqb_spec (dr_id x) id); congruence.
Qed.

(** The deletion of another document keeps the row. *)
Lemma delete_pdf_keeps id :
  id <> dr_pdf_id x -> statement_preserves kept (delete_pdf id).
Proof.
  intros N d now a d' H E. inversion E; subst.
  apply in_remove. split; [exact H |]. apply Z.eqb_neq. congruence.
Qed.

End KeepsRequest.

Create HintDb keeps.

#[export] Hint Resolve insert_pdf_keeps insert_upload_history_keeps
  insert_favorite_keeps delete_favorite_keeps update_cluster_keeps
  update_is_private_keeps insert_search_history_keeps
  insert_download_request_keeps insert_download_history_keeps
  insert_recently_viewed_keeps update_request_status_keeps delete_pdf_keeps
  statement_preserves_query : keeps.


(** A request is created pending and undecided. *)
Lemma request_download_pending (s : session) (id : Z) (w : world)
    (x : download_request) :
  In x (rows (download_requests (db (snd (serve (request_download s id) w))))) ->
  In x (rows (download_requests (db w))) \/
  (status x = Some "pending" /\ responded_at x = None /\
   dr_pdf_id x = id /\ requested_at x = clock w).
Proof.
  unfold request_download, requireLogin.
  destruct (user s) as [u |]; [| now left].
  destruct (String.eqb u EmptyString); [now left |].
  unfold serve, try_catch, bind, pool_query, insert_download_request.
  destruct (outages w) as [| [|] rest]; cbn; auto;
    destruct (pdf_exists (db w) id); cbn; auto;
    intros H; apply in_app_iff in H; destruct H as [H | [<- | []]]; auto;
    right; repeat split.
Qed.


(* ===================================================================== *)
(** * The upload pipeline *)
(* ===================================================================== *)

(** The inner [try] never raises: it leaves the parsed body of a 2xx
    answer, and the default object in every other case. *)
Lemma call_classifier_spec (pdfBuffer : bytes) (w : world) :
  call_classifier pdfBuffer w
    = (Returned (ml_result (classifier w pdfBuffer)), w).
Proof.
  unfold call_classifier, try_catch, bind, fetch_classifier, ml_result.
  destruct (classifier w pdfBuffer) as [| c [v |]]; cbn;
    try reflexivity; destruct (ok c); reflexivity.
Qed.



(** [/upload] up to step 7, for the administrator, with a file whose
    binary storage hands back: what remains are the two inserts and the
    [catch] block. *)
Lemma upload_classified (StringToNumber : string -> number) (s : session)
    (u : string) (f : uploaded_file) (private : option string)
    (w : world) (c : Z) (pdfBuffer : bytes) :
  admin s u ->
  path f <> EmptyString ->
  storage w (path f) = Response c (Some pdfBuffer) ->
  convertible (ml_result (classifier w pdfBuffer)) ->
  let mlResult := ml_result (classifier w pdfBuffer) in
  let p := classified StringToNumber mlResult in
  upload StringToNumber s (Some f) private w =
  try_catch
    (pool_query (insert_pdf (name f) (fst p) (path f) (is_on private) u (snd p)) ;;
     pool_query (insert_upload_history (name f) (fst p) u) ;;
     ret (upload_success (name f) (fst p) (snd p) mlResult))
    (try_catch
       (pool_query (insert_pdf (name f) (of_Z 0) (path f) (is_on private) u
                               (Fin q_half)) ;;
        ret (upload_fallback (name f)))
       (ret (upload_failed "Upload failed completely"))) w.
Proof.
  intros A Hp Hs [N1 N2]. cbn zeta. unfold upload.
  rewrite (logged_in_requireLogin _ (proj1 A)), (admin_isAdmin _ A).
  unfold has_path. destruct (String.eqb_spec (path f) EmptyString) as [E | _];
    [contradiction |]. cbn [negb].
  unfold try_catch at 1 3. unfold bind at 1 2 3. unfold fetch. rewrite Hs.
  cbn [read_body snd fst ret]. rewrite call_classifier_spec.
  unfold Math_of. rewrite N1, N2.
  reflexivity.
Qed.



(** C5, where the code departs from it: the clamp returns [NaN] for a
    confidence that does not convert to a number.  A classifier that wraps
    its confidence in an object gets the document stored with category 2
    and a confidence that is no number, outside [0.1, 1.0]. *)
Theorem upload_stores_unclamped_confidence (StringToNumber : string -> number) :
  let w := steady empty_database 1 Scenario.storage_ok
                  Scenario.classifier_nested in
  let served := serve (upload StringToNumber Scenario.administrator
                              (Some Scenario.new_file) None) w in
  map confidence (rows (pdfs (db (snd served)))) = [NaN] /\
  map cluster (rows (pdfs (db (snd served)))) = [2] /\
  clamp_confidence NaN = NaN /\
  ~ valid_confidence NaN.
Proof.
  cbn zeta. repeat split. intros H; exact H.
Qed.

(* ===================================================================== *)
(** * The scenarios, run *)
(* ===================================================================== *)

Lemma alice_logged_in : logged_in Scenario.alice "alice".
Proof. split; [reflexivity | discriminate]. Defined.

Lemma administrator_admin : admin Scenario.administrator "admin".
Proof. split; [split; [reflexivity | discriminate] | reflexivity]. Defined.

Lemma library_integrity : referential_integrity Scenario.library.
Proof.
  constructor; cbn; intros x H;
    repeat (destruct H as [<- | H]; [reflexivity |]); destruct H.
Defined.




Example scenario_A :
  fst (serve (download Scenario.alice 42)
             (steady (cascade 42 Scenario.library) 30 Scenario.storage_ok
                     Scenario.classifier_500))
    = Some (Send "Not allowed").
Proof. reflexivity. Qed.

Example scenario_B :
  fst (serve (download Scenario.alice 42)
             (steady Scenario.library 30 Scenario.storage_ok
                     Scenario.classifier_500))
    = Some (SendFile (attachment "thesis") "application/pdf" Scenario.binary).
Proof. reflexivity. Qed.


(** Scenario D: the classifier predicts (9, 1.4). *)
Example scenario_D :
  let served :=
    serve (upload Scenario.no_string Scenario.administrator
                  (Some Scenario.new_file) None)
          (steady empty_database 1 Scenario.storage_ok
                  Scenario.classifier_9_14) in
  map cluster (rows (pdfs (db (snd served)))) = [5] /\
  map confidence (rows (pdfs (db (snd served)))) = [Fin q_one].
Proof. split; reflexivity. Qed.









Example request_status_is_rejected :
  fst (serve (request_status Scenario.alice 42)
             (steady Scenario.library 30 Scenario.storage_ok
                     Scenario.classifier_500))
    = Some (status_json (Some "rejected")) /\
  fst (serve (request_status Scenario.alice 43)
             (steady Scenario.library 30 Scenario.storage_ok
                     Scenario.classifier_500))
    = Some (status_json None).
Proof. split; reflexivity. Qed.



(** Document 42 is deleted: nothing references it any more and alice, who
    held an accepted request, is not allowed to download it. *)
Lemma delete_cascades_witness :
  let d' := db (snd (serve (delete Scenario.administrator 42)
                           (steady Scenario.library 30 Scenario.storage_ok
                                   Scenario.classifier_500))) in
  unreferenced d' 42 /\
  forall s' u now' st' cl',
    logged_in s' u ->
    fst (serve (download s' 42) (steady d' now' st' cl'))
      = Some (Send "Not allowed").
Proof.
  exact (@delete_cascades Scenario.administrator "admin" 42 Scenario.library
           30 Scenario.storage_ok Scenario.classifier_500
           administrator_admin).
Defined.

(** Scenario E: request 7 is accepted twice; the second decision wins with
    its own time. *)
Example scenario_E :
  let first :=
    snd (serve (download_action Scenario.administrator (Some "accepted") 7)
               (steady Scenario.library 30 Scenario.storage_ok
                       Scenario.classifier_500)) in
  let second :=
    snd (serve (download_action Scenario.administrator (Some "accepted") 7)
               (steady (db first) 40 Scenario.storage_ok
                       Scenario.classifier_500)) in
  hd_error (rows (download_requests (db second)))
    = Some (decide_request (Some "accepted") 40 Scenario.request_7).
Proof. reflexivity. Qed.

(* ===================================================================== *)
(** * Sessions and roles *)
(* ===================================================================== *)

(** X1: a request that comes without a logged-in session is answered with
    the redirect to the login page, whatever the route, and leaves the
    world as it is: no statement is sent, no fetch is made. *)
Theorem anonymous_is_redirected (StringToNumber : string -> number)
    (r : request) (w : world) :
  anonymous (session_of r) ->
  serve (handler StringToNumber r) w = (Some (Redirect "/login"), w).
Proof.
  intros A. destruct r; cbn [handler session_of] in *;
    unfold upload, delete, favorite_add, unfavorite, update_course, search,
      request_download, download_requests_page, download_action, download,
      request_status, view, toggle_private, log_search, log_view,
      requireLogin;
    destruct A as [A | A]; rewrite A; reflexivity.
Qed.

(** X2: a request to a route reserved to the administrator (upload,
    delete, update-course, the list of download requests, the decision on
    a request, toggle-private) by a session whose role is not admin is
    answered with the redirect to the login page and leaves the world as
    it is. *)
Theorem admin_routes_are_reserved (StringToNumber : string -> number)
    (r : request) (w : world) :
  admin_only r = true ->
  is_admin_role (session_of r) = false ->
  serve (handler StringToNumber r) w = (Some (Redirect "/login"), w).
Proof.
  intros O N. destruct r; try discriminate O; cbn [handler session_of] in *;
    unfold upload, delete, update_course, download_requests_page,
      download_action, toggle_private, requireLogin, isAdmin;
    rewrite N; destruct (user s) as [u |]; try reflexivity;
    destruct (String.eqb u EmptyString); reflexivity.
Qed.

(* ===================================================================== *)
(** * The life of a download request *)
(* ===================================================================== *)

Lemma request_download_steady (s : session) (u : string) (id : Z)
    (d : database) (now : Z) (st : string -> fetched bytes)
    (cl : bytes -> fetched value) :
  logged_in s u ->
  serve (request_download s id) (steady d now st cl) =
  if pdf_exists d id
  then (Some (RedirectId "/view/" id), steady (with_request id u now d) now st cl)
  else (Some (Send "Request already sent"), steady d now st cl).
Proof.
  intros L. unfold request_download. rewrite (logged_in_requireLogin _ L).
  unfold serve, try_catch, bind, pool_query, insert_download_request; cbn.
  destruct (pdf_exists d id); reflexivity.
Qed.

Lemma download_action_steady (s : session) (a : string)
    (action : option string) (id : Z) (d : database) (now : Z)
    (st : string -> fetched bytes) (cl : bytes -> fetched value) :
  admin s a ->
  serve (download_action s action id) (steady d now st cl) =
  (Some (Redirect "/admin/download-requests"),
   steady (with_download_requests (update (fun r =>
             if Z.eqb (dr_id r) id then decide_request action now r else r)) d)
          now st cl).
Proof.
  intros A. unfold download_action.
  rewrite (logged_in_requireLogin _ (proj1 A)), (admin_isAdmin _ A).
  reflexivity.
Qed.

Lemma with_request_integrity (id : Z) (u : string) (now : Z) (d : database) :
  referential_integrity d -> pdf_exists d id = true ->
  referential_integrity (with_request id u now d).
Proof.
  intros RI X.
  refine (@insert_download_request_integrity id u d now tt _ RI _).
  unfold insert_download_request, with_request. now rewrite X.
Qed.

Lemma decided_integrity (action : option string) (id now : Z) (d : database) :
  referential_integrity d ->
  referential_integrity
    (with_download_requests (update (fun r =>
       if Z.eqb (dr_id r) id then decide_request action now r else r)) d).
Proof.
  intros RI.
  exact (@update_request_status_integrity action id d now tt _ RI eq_refl).
Qed.



(** X5: a request that is pending, or that the administrator rejected,
    does not open the gate.  When no request of the pair is accepted, the
    download is answered with 'Not allowed' after the user's new request,
    and still after the administrator rejected that request. *)
Theorem pending_or_rejected_is_denied (s sa : session) (u a : string)
    (id : Z) (d : database) (t1 t2 t3 : Z) (st : string -> fetched bytes)
    (cl : bytes -> fetched value) :
  logged_in s u -> admin sa a ->
  referential_integrity d ->
  pdf_exists d id = true ->
  ~ has_accepted d id u ->
  let requested := db (snd (serve (request_download s id) (steady d t1 st cl))) in
  let rejected :=
    db (snd (serve (download_action sa (Some "rejected")
                                    (next_id (download_requests d)))
                   (steady requested t2 st cl))) in
  fst (serve (download s id) (steady requested t3 st cl))
    = Some (Send "Not allowed") /\
  fst (serve (download s id) (steady rejected t3 st cl))
    = Some (Send "Not allowed").
Proof.
  intros L A RI X N requested rejected.
  assert (E1 : requested = with_request id u t1 d).
  { unfold requested. rewrite (request_download_steady id d t1 st cl L).
    now rewrite X. }
  assert (E2 : rejected =
    with_download_requests (update (fun r =>
      if Z.eqb (dr_id r) (next_id (download_requests d))
      then decide_request (Some "rejected") t2 r else r)) requested).
  { unfold rejected. now rewrite (download_action_steady _ _ _ _ _ _ A). }
  assert (RI1 : referential_integrity requested)
    by (rewrite E1; now apply with_request_integrity).
  assert (RI2 : referential_integrity rejected)
    by (rewrite E2; now apply decided_integrity).
  assert (N1 : ~ has_accepted requested id u).
  { intros [r (Hr & H1 & H2 & H3)]. rewrite E1 in Hr. unfold with_request in Hr.
    fields. apply in_append in Hr. destruct Hr as [Hr | ->].
    - apply N. exists r. auto.
    - discriminate H3. }
  assert (N2 : ~ has_accepted rejected id u).
  { intros [r (Hr & H1 & H2 & H3)]. rewrite E2 in Hr. fields.
    apply in_update in Hr. destruct Hr as [y [Hy ->]].
    destruct (Z.eqb (dr_id y) (next_id (download_requests d))).
    - discriminate H3.
    - apply N1. exists y. auto. }
  rewrite !(download_steady id _ t3 st cl L).
  now rewrite (accepted_join_empty N1 RI1), (accepted_join_empty N2 RI2).
Qed.

(* ===================================================================== *)
(** * Keys *)
(* ===================================================================== *)

Lemma NoDup_map_filter (A B : Type) (f : A -> B) (g : A -> bool) (l : list A) :
  NoDup (map f l) -> NoDup (map f (filter g l)).
Proof.
  induction l as [| x l IH]; cbn; [auto |].
  intros H. inversion H as [| ? ? Hx Hl]; subst.
  destruct (g x); cbn; [constructor |]; auto.
  intros I. apply Hx. apply in_map_iff in I. destruct I as [y [E I]].
  apply filter_In in I. apply in_map_iff. exists y. tauto.
Qed.

Lemma NoDup_snoc (A : Type) (l : list A) (x : A) :
  NoDup l -> ~ In x l -> NoDup (l ++ [x]).
Proof.
  induction l as [| y l IH]; cbn; intros H N.
  - constructor; [intros [] | constructor].
  - inversion H; subst. constructor.
    + rewrite in_app_iff. cbn. intuition congruence.
    + apply IH; auto.
Qed.

Section Keyed.

Variable R : Type.
Variable key : R -> Z.


Lemma keyed_append (mk : Z -> R) (t : table R) :
  (forall k, key (mk k) = k) -> keyed key t -> keyed key (append mk t).
Proof.
  intros Hk [N B]. split; cbn.
  - rewrite map_app; cbn. apply NoDup_snoc; [exact N |].
    rewrite Hk. intros I. apply in_map_iff in I. destruct I as [r [E I]].
    specialize (B r I). lia.
  - intros r I. apply in_app_iff in I. destruct I as [I | [<- | []]].
    + specialize (B r I). lia.
    + rewrite Hk. lia.
Qed.

Lemma keyed_remove (gone : R -> bool) (t : table R) :
  keyed key t -> keyed key (remove gone t).
Proof.
  intros [N B]. split; cbn.
  - now apply NoDup_map_filter.
  - intros r I. apply filter_In in I. now apply B.
Qed.

Lemma keyed_update (f : R -> R) (t : table R) :
  (forall r, key (f r) = key r) -> keyed key t -> keyed key (update f t).
Proof.
  intros Hf [N B]. split; cbn.
  - rewrite map_map. now rewrite (map_ext _ key Hf).
  - intros r I. apply in_map_iff in I. destruct I as [y [<- I]].
    rewrite Hf. now apply B.
Qed.

End Keyed.


(** Closes the case of a statement for the primary keys. *)
Ltac keys stmt :=
  intros d now a d' [K1 K2 K3 K4 K5 K6 K7] E; unfold stmt in E;
  repeat match type of E with
         | context [match ?c with _ => _ end] => destruct c
         end;
  inversion E; subst; unfold cascade; constructor; fields;
  first [ assumption
        | apply keyed_append; [reflexivity | assumption]
        | apply keyed_remove; assumption
        | apply keyed_update;
          [ intros r; destruct (Z.eqb _ _); reflexivity | assumption ] ].

Lemma insert_pdf_keys t c l p u f : statement_preserves primary_keys (insert_pdf t c l p u f).
Proof. keys insert_pdf. Qed.

Lemma insert_upload_history_keys t c u :
  statement_preserves primary_keys (insert_upload_history t c u).
Proof. keys insert_upload_history. Qed.

Lemma delete_pdf_keys id : statement_preserves primary_keys (delete_pdf id).
Proof. keys delete_pdf. Qed.

Lemma insert_favorite_keys u id : statement_preserves primary_keys (insert_favorite u id).
Proof. keys insert_favorite. Qed.

Lemma delete_favorite_keys u id : statement_preserves primary_keys (delete_favorite u id).
Proof. keys delete_favorite. Qed.

Lemma update_cluster_keys c id : statement_preserves primary_keys (update_cluster c id).
Proof. keys update_cluster. Qed.

Lemma update_is_private_keys b id :
  statement_preserves primary_keys (update_is_private b id).
Proof. keys update_is_private. Qed.

Lemma insert_search_history_keys u q :
  statement_preserves primary_keys (insert_search_history u q).
Proof. keys insert_search_history. Qed.

Lemma insert_download_request_keys id u :
  statement_preserves primary_keys (insert_download_request id u).
Proof. keys insert_download_request. Qed.

Lemma update_request_status_keys action id :
  statement_preserves primary_keys (update_request_status action id).
Proof. keys update_request_status. Qed.

Lemma insert_download_history_keys id u :
  statement_preserves primary_keys (insert_download_history id u).
Proof. keys insert_download_history. Qed.

Lemma insert_recently_viewed_keys u id :
  statement_preserves primary_keys (insert_recently_viewed u id).
Proof. keys insert_recently_viewed. Qed.

Create HintDb keys.

#[export] Hint Resolve insert_pdf_keys insert_upload_history_keys
  delete_pdf_keys insert_favorite_keys delete_favorite_keys
  update_cluster_keys update_is_private_keys insert_search_history_keys
  insert_download_request_keys update_request_status_keys
  insert_download_history_keys insert_recently_viewed_keys
  statement_preserves_query : keys.



(* ===================================================================== *)
(** * Favorites *)
(* ===================================================================== *)

Lemma favorite_taken_iff (d : database) (u : string) (id : Z) :
  existsb (fun f => String.eqb (fav_username f) u && Z.eqb (fav_pdf_id f) id)
          (rows (favorites d)) = true <->
  In (u, id) (map (fun f => (fav_username f, fav_pdf_id f)) (rows (favorites d))).
Proof.
  rewrite existsb_exists, in_map_iff. split; intros [f H]; exists f.
  - destruct H as [I E]. apply andb_true_iff in E. destruct E as [E1 E2].
    apply String.eqb_eq in E1. apply Z.eqb_eq in E2. subst. auto.
  - destruct H as [E I]. inversion E; subst. split; [exact I |].
    now rewrite String.eqb_refl, Z.eqb_refl.
Qed.

(** Closes the case of a statement that leaves [favorites] alone. *)
Ltac same_favorites stmt :=
  intros d now a d' H E; unfold stmt in E;
  repeat match type of E with
         | context [match ?c with _ => _ end] => destruct c
         end;
  inversion E; subst; exact H.

Lemma insert_pdf_unique t c l p u f :
  statement_preserves favorites_unique (insert_pdf t c l p u f).
Proof. same_favorites insert_pdf. Qed.

Lemma insert_upload_history_unique t c u :
  statement_preserves favorites_unique (insert_upload_history t c u).
Proof. same_favorites insert_upload_history. Qed.

Lemma update_cluster_unique c id :
  statement_preserves favorites_unique (update_cluster c id).
Proof. same_favorites update_cluster. Qed.

Lemma update_is_private_unique b id :
  statement_preserves favorites_unique (update_is_private b id).
Proof. same_favorites update_is_private. Qed.

Lemma insert_search_history_unique u q :
  statement_preserves favorites_unique (insert_search_history u q).
Proof. same_favorites insert_search_history. Qed.

Lemma insert_download_request_unique id u :
  statement_preserves favorites_unique (insert_download_request id u).
Proof. same_favorites insert_download_request. Qed.

Lemma update_request_status_unique action id :
  statement_preserves favorites_unique (update_request_status action id).
Proof. same_favorites update_request_status. Qed.

Lemma insert_download_history_unique id u :
  statement_preserves favorites_unique (insert_download_history id u).
Proof. same_favorites insert_download_history. Qed.

Lemma insert_recently_viewed_unique u id :
  statement_preserves favorites_unique (insert_recently_viewed u id).
Proof. same_favorites insert_recently_viewed. Qed.

Lemma delete_pdf_unique id : statement_preserves favorites_unique (delete_pdf id).
Proof.
  intros d now a d' H E. inversion E; subst.
  unfold favorites_unique, cascade; cbn. now apply NoDup_map_filter.
Qed.

Lemma delete_favorite_unique u id :
  statement_preserves favorites_unique (delete_favorite u id).
Proof.
  intros d now a d' H E. inversion E; subst.
  unfold favorites_unique; cbn. now apply NoDup_map_filter.
Qed.

Lemma insert_favorite_unique u id :
  statement_preserves favorites_unique (insert_favorite u id).
Proof.
  intros d now a d' H E. unfold insert_favorite in E.
  destruct (pdf_exists d id); cbn in E; [| discriminate].
  destruct (existsb _ (rows (favorites d))) eqn:T; cbn in E; [discriminate |].
  inversion E; subst. unfold favorites_unique; cbn.
  rewrite map_app; cbn. apply NoDup_snoc; [exact H |].
  intros I. apply favorite_taken_iff in I. congruence.
Qed.

Create HintDb unique.

#[export] Hint Resolve insert_pdf_unique insert_upload_history_unique
  update_cluster_unique update_is_private_unique insert_search_history_unique
  insert_download_request_unique update_request_status_unique
  insert_download_history_unique insert_recently_viewed_unique
  delete_pdf_unique delete_favorite_unique insert_favorite_unique
  statement_preserves_query : unique.



Lemma favorite_add_steady (s : session) (u : string) (id : Z) (d : database)
    (now : Z) (st : string -> fetched bytes) (cl : bytes -> fetched value) :
  logged_in s u ->
  serve (favorite_add s id) (steady d now st cl) =
  (Some (RedirectId "/view/" id),
   steady (match insert_favorite u id d now with
           | Some (_, d') => d'
           | None => d
           end) now st cl).
Proof.
  intros L. unfold favorite_add. rewrite (logged_in_requireLogin _ L).
  unfold serve, try_catch, bind, pool_query; cbn.
  destruct (insert_favorite u id d now) as [[[] d'] |]; reflexivity.
Qed.

Lemma unfavorite_steady (s : session) (u : string) (id : Z) (d : database)
    (now : Z) (st : string -> fetched bytes) (cl : bytes -> fetched value) :
  logged_in s u ->
  serve (unfavorite s id) (steady d now st cl) =
  (Some (RedirectId "/view/" id),
   steady (with_favorites (remove (fun f =>
             String.eqb (fav_username f) u && Z.eqb (fav_pdf_id f) id)) d)
          now st cl).
Proof.
  intros L. unfold unfavorite. now rewrite (logged_in_requireLogin _ L).
Qed.


(** X9: removing a favorite undoes adding it.  After a logged-in user
    adds a favorite for a document and removes it again, the favorites are
    the rows there were before, less the user's row for that document, and
    no other table has changed. *)
Theorem favorite_then_unfavorite (s : session) (u : string) (id : Z)
    (d : database) (t1 t2 : Z) (st : string -> fetched bytes)
    (cl : bytes -> fetched value) :
  logged_in s u ->
  let added := db (snd (serve (favorite_add s id) (steady d t1 st cl))) in
  let removed := db (snd (serve (unfavorite s id) (steady added t2 st cl))) in
  rows (favorites removed) =
    filter (fun f => negb (String.eqb (fav_username f) u
                           && Z.eqb (fav_pdf_id f) id))
           (rows (favorites d)) /\
  pdfs removed = pdfs d /\ recently_viewed removed = recently_viewed d /\
  download_requests removed = download_requests d /\
  download_history removed = download_history d /\
  search_history removed = search_history d /\
  upload_history removed = upload_history d.
Proof.
  intros L added removed. unfold removed, added.
  rewrite (favorite_add_steady id d t1 st cl L). cbn [snd db steady].
  rewrite (unfavorite_steady id _ t2 st cl L). cbn [snd db steady].
  unfold insert_favorite.
  destruct (pdf_exists d id && negb (existsb _ (rows (favorites d))));
    cbn; repeat split.
  rewrite filter_app; cbn.
  rewrite String.eqb_refl, Z.eqb_refl; cbn. now rewrite app_nil_r.
Qed.

(* ===================================================================== *)
(** * Visibility *)
(* ===================================================================== *)

Lemma document_found (d : database) (id : Z) (p : pdf) :
  document d id = Some p ->
  exists rest,
    filter (fun q => Z.eqb (pdf_id q) id) (rows (pdfs d)) = p :: rest /\
    In p (rows (pdfs d)) /\ pdf_id p = id.
Proof.
  unfold document. intros H.
  destruct (filter _ (rows (pdfs d))) as [| q rest] eqn:E; [discriminate |].
  inversion H; subst q. exists rest. split; [reflexivity |].
  assert (I : In p (filter (fun q => Z.eqb (pdf_id q) id) (rows (pdfs d))))
    by (rewrite E; now left).
  apply filter_In in I. destruct I as [I K]. apply Z.eqb_eq in K. auto.
Qed.

Lemma view_steady (s : session) (u : string) (id : Z)
    (p : pdf) (d : database) (now : Z) (st : string -> fetched bytes)
    (cl : bytes -> fetched value) :
  logged_in s u ->
  document d id = Some p ->
  serve (view s id) (steady d now st cl) =
  if is_private p && negb (is_admin_role s)
  then (Some (Send "Access denied"), steady d now st cl)
  else (Some (Render "view"), steady (with_view id u now d) now st cl).
Proof.
  intros L D. destruct (document_found _ _ D) as (rest & E & I & K).
  assert (X : pdf_exists d (pdf_id p) = true)
    by (apply pdf_exists_iff; now exists p).
  unfold view. rewrite (logged_in_requireLogin _ L).
  unfold serve, try_catch, bind, pool_query, select_pdf.
  cbn [outages steady db clock with_db tl]. rewrite E.
  destruct (is_private p && negb (is_admin_role s)); [reflexivity |].
  unfold insert_recently_viewed. cbn [outages steady db clock with_db tl].
  rewrite X. cbn [outages steady db clock with_db tl]. now rewrite K.
Qed.

(** X10: the visibility flag gates the page of a document.  For a
    logged-in user and an existing document, the view is answered with
    'Access denied' and records nothing when the document is private and
    the user is not the administrator; otherwise the page is rendered and
    one view of the document by the user is recorded. *)
Theorem view_respects_visibility (s : session) (u : string) (id : Z)
    (p : pdf) (d : database) (now : Z) (st : string -> fetched bytes)
    (cl : bytes -> fetched value) :
  logged_in s u ->
  document d id = Some p ->
  (is_private p = true -> is_admin_role s = false ->
   serve (view s id) (steady d now st cl)
     = (Some (Send "Access denied"), steady d now st cl)) /\
  (is_private p = false \/ is_admin_role s = true ->
   serve (view s id) (steady d now st cl)
     = (Some (Render "view"), steady (with_view id u now d) now st cl)).
Proof.
  intros L D. rewrite (@view_steady s u id p d now st cl L D). split.
  - intros -> ->. reflexivity.
  - intros [-> | ->]; [reflexivity |].
    now rewrite andb_false_r.
Qed.

Lemma same_key_same_row (l : list pdf) (p q : pdf) :
  NoDup (map pdf_id l) -> In p l -> In q l -> pdf_id q = pdf_id p -> q = p.
Proof.
  induction l as [| x l IH]; cbn; [contradiction |].
  intros N [<- | Ip] [<- | Iq] E; auto; inversion N as [| ? ? Hx Hl]; subst.
  - exfalso. apply Hx. rewrite <- E. now apply in_map.
  - exfalso. apply Hx. rewrite E. now apply in_map.
  - now apply IH.
Qed.

Lemma filter_map_same_key (g : pdf -> pdf) (id : Z) (l : list pdf) :
  (forall q, pdf_id (g q) = pdf_id q) ->
  filter (fun q => Z.eqb (pdf_id q) id) (map g l)
    = map g (filter (fun q => Z.eqb (pdf_id q) id) l).
Proof.
  intros H. induction l as [| x l IH]; cbn; [reflexivity |].
  rewrite H. destruct (Z.eqb (pdf_id x) id); cbn; now rewrite IH.
Qed.

Lemma toggle_private_steady (s : session) (a : string) (id : Z) (p : pdf)
    (d : database) (now : Z) (st : string -> fetched bytes)
    (cl : bytes -> fetched value) :
  admin s a ->
  document d id = Some p ->
  serve (toggle_private s id) (steady d now st cl) =
  (Some (RedirectId "/view-admin/" id),
   steady (with_pdfs (update (fun q =>
             if Z.eqb (pdf_id q) id then
               {| pdf_id := pdf_id q; title := title q; cluster := cluster q;
                  url := url q; is_private := negb (is_private p);
                  uploader := uploader q; confidence := confidence q;
                  uploaded_at := uploaded_at q |}
             else q)) d) now st cl).
Proof.
  intros A D. destruct (document_found _ _ D) as (rest & E & _).
  unfold toggle_private.
  rewrite (logged_in_requireLogin _ (proj1 A)), (admin_isAdmin _ A).
  unfold serve, try_catch, bind, pool_query, select_pdf; cbn.
  now rewrite E.
Qed.

(** X11: toggling the visibility of a document twice puts the store back
    as it was.  With the ids of [pdfs] distinct, the first toggle negates
    the flag of the addressed document and of no other, and the second
    restores the database. *)
Theorem toggle_private_twice (s : session) (a : string) (id : Z) (p : pdf)
    (d : database) (t1 t2 : Z) (st : string -> fetched bytes)
    (cl : bytes -> fetched value) :
  admin s a ->
  keyed pdf_id (pdfs d) ->
  document d id = Some p ->
  let once := db (snd (serve (toggle_private s id) (steady d t1 st cl))) in
  let twice := db (snd (serve (toggle_private s id) (steady once t2 st cl))) in
  (exists p', document once id = Some p' /\
              is_private p' = negb (is_private p) /\
              title p' = title p /\ url p' = url p /\ cluster p' = cluster p) /\
  (forall q, In q (rows (pdfs d)) -> pdf_id q <> id -> In q (rows (pdfs once))) /\
  twice = d.
Proof.
  intros A [N _] D once twice.
  destruct (document_found _ _ D) as (rest & E & I & K).
  set (flip := fun (b : bool) (q : pdf) =>
         if Z.eqb (pdf_id q) id then
           {| pdf_id := pdf_id q; title := title q; cluster := cluster q;
              url := url q; is_private := b;
              uploader := uploader q; confidence := confidence q;
              uploaded_at := uploaded_at q |}
         else q).
  assert (E1 : once = with_pdfs (update (flip (negb (is_private p)))) d).
  { unfold once. now rewrite (@toggle_private_steady s a id p d t1 st cl A D). }
  assert (F : forall b, filter (fun q => Z.eqb (pdf_id q) id)
                               (map (flip b) (rows (pdfs d)))
                        = map (flip b) (p :: rest)).
  { intros b. rewrite <- E. apply filter_map_same_key.
    intros q. unfold flip. now destruct (Z.eqb (pdf_id q) id). }
  assert (D1 : document once id = Some (flip (negb (is_private p)) p)).
  { rewrite E1. unfold document; cbn. now rewrite F. }
  split; [| split].
  - exists (flip (negb (is_private p)) p). split; [exact D1 |].
    unfold flip. rewrite K, Z.eqb_refl. cbn. auto.
  - intros q Iq Nq. rewrite E1. cbn. apply in_map_iff. exists q.
    split; [| exact Iq]. unfold flip.
    destruct (Z.eqb_spec (pdf_id q) id); [contradiction | reflexivity].
  - unfold twice. rewrite (@toggle_private_steady s a id _ once t2 st cl A D1).
    cbn [snd db steady].
    rewrite E1. destruct d as [P F1 F2 F3 F4 F5 F6].
    unfold with_pdfs; cbn. f_equal.
    destruct P as [l n]. unfold update; cbn in *. f_equal.
    rewrite map_map. rewrite <- (map_id l) at 2. apply map_ext_in.
    intros q Iq. unfold flip. rewrite K, Z.eqb_refl. cbn.
    destruct (Z.eqb (pdf_id q) id) eqn:T; cbn; rewrite T; [| reflexivity].
    apply Z.eqb_eq in T.
    assert (q = p) by (apply (same_key_same_row l p q N I Iq); congruence).
    subst q. rewrite negb_involutive. now destruct p.
Qed.

(* ===================================================================== *)
(** * More of the upload pipeline *)
(* ===================================================================== *)



Lemma upload_stored (StringToNumber : string -> number) (s : session)
    (a : string) (f : uploaded_file) (private : option string)
    (d : database) (now : Z) (st : string -> fetched bytes)
    (cl : bytes -> fetched value) (c code : Z) (conf : number)
    (pdfBuffer : bytes) (mlResult : value) :
  admin s a ->
  path f <> EmptyString ->
  st (path f) = Response code (Some pdfBuffer) ->
  ml_result (cl pdfBuffer) = mlResult ->
  convertible mlResult ->
  classified StringToNumber mlResult = (of_Z c, conf) ->
  to_int (of_Z c) = Some c ->
  serve (upload StringToNumber s (Some f) private) (steady d now st cl) =
    (Some (upload_success (name f) (of_Z c) conf mlResult),
     steady (with_upload_record (name f) c a now
               (with_document (name f) c (path f) (is_on private) a conf
                              now d)) now st cl).
Proof.
  intros A Hp Hs Hm Hc Hk Hi. unfold serve.
  rewrite (upload_classified StringToNumber f private (steady d now st cl)
             A Hp Hs); cbn [classifier steady]; rewrite Hm; [| exact Hc].
  rewrite Hk. cbn [fst snd].
  unfold try_catch, bind, pool_query, insert_pdf, insert_upload_history.
  cbn [outages steady db clock with_db tl]. rewrite Hi. reflexivity.
Qed.

Lemma to_int_small (c : Z) : (0 <= c <= 5)%Z -> to_int (of_Z c) = Some c.
Proof.
  intros H.
  assert (K : (c = 0 \/ c = 1 \/ c = 2 \/ c = 3 \/ c = 4 \/ c = 5)%Z) by lia.
  destruct K as [-> | [-> | [-> | [-> | [-> | ->]]]]]; reflexivity.
Qed.

Lemma valid_cluster_small (c : Z) : (0 <= c <= 5)%Z -> valid_cluster (of_Z c).
Proof.
  intros H.
  assert (K : (c = 0 \/ c = 1 \/ c = 2 \/ c = 3 \/ c = 4 \/ c = 5)%Z) by lia.
  destruct K as [-> | [-> | [-> | [-> | [-> | ->]]]]];
    split; now apply Qle_bool_iff.
Qed.

(** X14: a genuine prediction is stored as it is.  When the classifier
    answers 2xx with [success: true], a category that is one of 0..5 and a
    confidence within [0.1, 1.0], the upload stores the document with
    exactly that category and confidence, the visibility the form asked
    for and the administrator as uploader, writes an upload-history row
    with the same title and category, and reports [api_used: true]. *)
Theorem upload_keeps_prediction (StringToNumber : string -> number)
    (s : session) (a : string) (f : uploaded_file) (private : option string)
    (d : database) (now : Z) (st : string -> fetched bytes)
    (cl : bytes -> fetched value) (code api : Z) (pdfBuffer : bytes)
    (mlResult : value) (c : Z) (q : Qc) :
  admin s a ->
  path f <> EmptyString ->
  st (path f) = Response code (Some pdfBuffer) ->
  cl pdfBuffer = Response api (Some mlResult) -> ok api = true ->
  get mlResult "success" = JBool true ->
  get mlResult "cluster" = JNumber (of_Z c) -> (0 <= c <= 5)%Z ->
  get mlResult "confidence" = JNumber (Fin q) -> valid_confidence (Fin q) ->
  serve (upload StringToNumber s (Some f) private) (steady d now st cl) =
    (Some (Json (JObject
       [("success", JBool true); ("title", JString (name f));
        ("cluster", JNumber (of_Z c));
        ("cluster_name", cluster_name (of_Z c));
        ("confidence", JNumber (Fin q));
        ("api_used", JBool true)])),
     steady (with_upload_record (name f) c a now
               (with_document (name f) c (path f) (is_on private) a (Fin q)
                              now d)) now st cl).
Proof.
  intros A Hp Hs Hcl Hok H1 H2 Hc H3 Hq.
  assert (T : truthy mlResult = true).
  { destruct mlResult; try discriminate H1. reflexivity. }
  assert (Tq : truthy (JNumber (Fin q)) = true).
  { cbn. destruct (Qeq_bool q 0) eqn:E; [| reflexivity].
    apply Qeq_bool_iff in E. destruct Hq as [L _].
    unfold Qcle in L. rewrite E in L. now apply Qle_bool_iff in L. }
  assert (P : prediction mlResult = (JNumber (of_Z c), JNumber (Fin q))).
  { unfold prediction, and_then. rewrite T, H1, H2, H3. cbn [truthy].
    unfold or_else. rewrite Tq. f_equal.
    destruct (truthy (JNumber (of_Z c))) eqn:Tc; [reflexivity |].
    assert (K : (c = 0 \/ c = 1 \/ c = 2 \/ c = 3 \/ c = 4 \/ c = 5)%Z) by lia.
    destruct K as [-> | [-> | [-> | [-> | [-> | ->]]]]];
      try discriminate Tc; reflexivity. }
  assert (M : ml_result (cl pdfBuffer) = mlResult)
    by (rewrite Hcl; cbn; now rewrite Hok).
  rewrite (@upload_stored StringToNumber s a f private d now st cl c code
             (Fin q) pdfBuffer mlResult A Hp Hs M).
  - unfold upload_success, and_then. now rewrite T, H1.
  - unfold convertible. now rewrite P.
  - unfold classified. rewrite P. cbn [fst snd ToNumber].
    now apply clamp_identity; [apply valid_cluster_small |].
  - now apply to_int_small.
Qed.


Lemma to_int_clamp_cluster (n : number) (c : Z) :
  to_int (clamp_cluster n) = Some c -> valid_category c.
Proof.
  intros E.
  assert (Hn : n <> NaN) by (intros ->; discriminate E).
  pose proof (clamp_to_range zero_le_five Hn) as R.
  change (between (Q2Qc (inject_Z 0)) (Q2Qc (inject_Z 5)) (clamp_cluster n)) in R.
  destruct (clamp_cluster n) as [| | r |]; try contradiction.
  destruct R as [L U]. unfold to_int in E.
  destruct (Pos.eqb (Qden r) 1) eqn:D; cbn [andb] in E; [| discriminate].
  destruct (Z.leb _ _ && Z.ltb _ _); [| discriminate].
  inversion E; subst c. apply Pos.eqb_eq in D.
  unfold Qcle, Qle in L, U. cbn in L, U. rewrite D in *.
  unfold valid_category. lia.
Qed.

Section StoredCategories.

Variable before : database.

Local Abbreviation categories_valid :=
  (fun d : database =>
     (forall p, In p (rows (pdfs d)) ->
        In p (rows (pdfs before)) \/ valid_category (cluster p)) /\
     (forall h, In h (rows (upload_history d)) ->
        In h (rows (upload_history before)) \/ valid_category (uh_course h))).

Lemma insert_pdf_valid t ci l p u f :
  (forall c, to_int ci = Some c -> valid_category c) ->
  statement_preserves categories_valid (insert_pdf t ci l p u f).
Proof.
  intros V d now a d' [H1 H2] E. unfold insert_pdf in E.
  destruct (to_int ci) as [c |]; inversion E; subst; clear E. split; fields.
  - intros x I. apply in_append in I. destruct I as [I | ->]; auto.
  - exact H2.
Qed.

Lemma insert_upload_history_valid t ci u :
  (forall c, to_int ci = Some c -> valid_category c) ->
  statement_preserves categories_valid (insert_upload_history t ci u).
Proof.
  intros V d now a d' [H1 H2] E. unfold insert_upload_history in E.
  destruct (to_int ci) as [c |]; inversion E; subst; clear E. split; fields.
  - exact H1.
  - intros x I. apply in_append in I. destruct I as [I | ->]; auto.
Qed.

Lemma preserves_Math_of (StringToNumber : string -> number)
    (P : database -> Prop) (A : Type) (f : number -> number) (v : value)
    (k : number -> M A) :
  (forall n, preserves P (k (f n))) ->
  preserves P (bind (Math_of StringToNumber f v) k).
Proof.
  intros H w Hw. unfold bind, Math_of.
  destruct (raises_on_conversion v); cbn; [exact Hw | now apply H].
Qed.

Lemma upload_valid (StringToNumber : string -> number) (s : session)
    (file : option uploaded_file) (private : option string) :
  preserves categories_valid (upload StringToNumber s file private).
Proof.
  assert (Z0 : forall c, to_int (of_Z 0) = Some c -> valid_category c).
  { intros c E. inversion E. unfold valid_category. lia. }
  unfold upload. apply preserves_requireLogin. intros u.
  apply preserves_isAdmin. apply preserves_try_catch.
  - destruct file as [f |]; [| apply preserves_ret].
    destruct (has_path (Some f)); [| apply preserves_ret].
    apply preserves_bind; [apply preserves_fetch | intros r].
    apply preserves_bind; [apply preserves_read_body | intros b].
    apply preserves_bind;
      [unfold call_classifier; handler_steps | intros ml].
    apply preserves_Math_of. intros n.
    apply preserves_Math_of. intros m.
    apply preserves_bind; [| intros _; apply preserves_bind;
                             [| intros _; apply preserves_ret]];
      apply preserves_pool_query.
    + apply insert_pdf_valid. apply to_int_clamp_cluster.
    + apply insert_upload_history_valid. apply to_int_clamp_cluster.
  - apply preserves_try_catch; [| apply preserves_ret].
    apply preserves_bind; [| intros _; apply preserves_ret].
    apply preserves_pool_query. now apply insert_pdf_valid.
Qed.

End StoredCategories.

(** X16: an upload never stores a category outside 0..5.  Whatever the
    session, the file, the answers of storage and of the classifier and
    the outages of the database, every document row and every
    upload-history row that an upload adds carries a category that is one
    of the six. *)
Theorem upload_stores_valid_category (StringToNumber : string -> number)
    (s : session) (file : option uploaded_file) (private : option string)
    (w : world) :
  let after := db (snd (serve (upload StringToNumber s file private) w)) in
  (forall p, In p (rows (pdfs after)) ->
     In p (rows (pdfs (db w))) \/ valid_category (cluster p)) /\
  (forall h, In h (rows (upload_history after)) ->
     In h (rows (upload_history (db w))) \/ valid_category (uh_course h)).
Proof.
  cbn zeta.
  apply (preserves_serve (P := fun d =>
    (forall p, In p (rows (pdfs d)) ->
       In p (rows (pdfs (db w))) \/ valid_category (cluster p)) /\
    (forall h, In h (rows (upload_history d)) ->
       In h (rows (upload_history (db w))) \/ valid_category (uh_course h)))).
  - apply upload_valid.
  - split; auto.
Qed.

(* ===================================================================== *)
(** * The activity log only grows *)
(* ===================================================================== *)

Section Grows.

Variable before : database.

Local Abbreviation logs_grow :=
  (fun d : database =>
     (exists l, rows (upload_history d) = (rows (upload_history before) ++ l)%list) /\
     (exists l, rows (search_history d) = (rows (search_history before) ++ l)%list) /\
     (exists l, rows (download_history d) = (rows (download_history before) ++ l)%list) /\
     (exists l, rows (recently_viewed d) = (rows (recently_viewed before) ++ l)%list)).

(** Closes the case of a statement that appends to a log or leaves the
    four of them alone. *)
Ltac grows stmt :=
  intros d now a d' (H1 & H2 & H3 & H4) E; unfold stmt in E;
  repeat match type of E with
         | context [match ?c with _ => _ end] => destruct c
         end;
  inversion E; subst; repeat split; fields;
  first [ assumption
        | match goal with
          | H : exists l, rows ?t = (_ ++ l)%list
            |- exists l', rows (append ?mk ?t) = (_ ++ l')%list =>
              destruct H as [l H]; exists (l ++ [mk (next_id t)])%list;
              unfold append; cbn [rows]; rewrite H; now rewrite app_assoc
          end ].

Lemma insert_pdf_grows t c l p u f : statement_preserves logs_grow (insert_pdf t c l p u f).
Proof. grows insert_pdf. Qed.

Lemma insert_upload_history_grows t c u :
  statement_preserves logs_grow (insert_upload_history t c u).
Proof. grows insert_upload_history. Qed.

Lemma insert_favorite_grows u id : statement_preserves logs_grow (insert_favorite u id).
Proof. grows insert_favorite. Qed.

Lemma delete_favorite_grows u id : statement_preserves logs_grow (delete_favorite u id).
Proof. grows delete_favorite. Qed.

Lemma update_cluster_grows c id : statement_preserves logs_grow (update_cluster c id).
Proof. grows update_cluster. Qed.

Lemma update_is_private_grows b id :
  statement_preserves logs_grow (update_is_private b id).
Proof. grows update_is_private. Qed.

Lemma insert_search_history_grows u q :
  statement_preserves logs_grow (insert_search_history u q).
Proof. grows insert_search_history. Qed.

Lemma insert_download_request_grows id u :
  statement_preserves logs_grow (insert_download_request id u).
Proof. grows insert_download_request. Qed.

Lemma update_request_status_grows action id :
  statement_preserves logs_grow (update_request_status action id).
Proof. grows update_request_status. Qed.

Lemma insert_download_history_grows id u :
  statement_preserves logs_grow (insert_download_history id u).
Proof. grows insert_download_history. Qed.

Lemma insert_recently_viewed_grows u id :
  statement_preserves logs_grow (insert_recently_viewed u id).
Proof. grows insert_recently_viewed. Qed.

End Grows.

Create HintDb grows.

#[export] Hint Resolve insert_pdf_grows insert_upload_history_grows
  insert_favorite_grows delete_favorite_grows update_cluster_grows
  update_is_private_grows insert_search_history_grows
  insert_download_request_grows update_request_status_grows
  insert_download_history_grows insert_recently_viewed_grows
  statement_preserves_query : grows.

(** X17: the activity log is append-only.  Whatever request is served, in
    whatever world, the rows of the upload history and of the search
    history are kept, in order, and new rows only come after them; the
    same holds for the download history and the view history under every
    request but the deletion of a document. *)
Theorem logs_are_append_only (StringToNumber : string -> number)
    (r : request) (w : world) :
  let d := db w in
  let d' := db (snd (serve (handler StringToNumber r) w)) in
  (exists l, rows (upload_history d') = (rows (upload_history d) ++ l)%list) /\
  (exists l, rows (search_history d') = (rows (search_history d) ++ l)%list) /\
  ((forall s id, r <> Delete s id) ->
   (exists l, rows (download_history d') = (rows (download_history d) ++ l)%list) /\
   (exists l, rows (recently_viewed d') = (rows (recently_viewed d) ++ l)%list)).
Proof.
  cbn zeta.
  assert (B : (exists l, rows (upload_history (db w))
                         = (rows (upload_history (db w)) ++ l)%list) /\
              (exists l, rows (search_history (db w))
                         = (rows (search_history (db w)) ++ l)%list) /\
              (exists l, rows (download_history (db w))
                         = (rows (download_history (db w)) ++ l)%list) /\
              (exists l, rows (recently_viewed (db w))
                         = (rows (recently_viewed (db w)) ++ l)%list))
    by (repeat split; exists []; now rewrite app_nil_r).
  destruct (match r with Delete _ _ => true | _ => false end) eqn:K.
  - destruct r; try discriminate K. cbn [handler].
    assert (E : db (snd (serve (delete s id) w)) = db w \/
                db (snd (serve (delete s id) w)) = cascade id (db w)).
    { unfold delete, requireLogin, isAdmin.
      destruct (user s) as [u |]; [| now left].
      destruct (String.eqb u EmptyString); cbn [orb]; [now left |].
      destruct (negb (is_admin_role s)); [now left |].
      unfold serve, bind, pool_query, delete_pdf.
      destruct (outages w) as [| [|] rest]; cbn; auto. }
    destruct E as [E | E]; rewrite E; (split; [| split]);
      try (exists []; now rewrite app_nil_r);
      intros N; exfalso; now apply (N s id).
  - assert (P : preserves (fun d =>
        (exists l, rows (upload_history d) = (rows (upload_history (db w)) ++ l)%list) /\
        (exists l, rows (search_history d) = (rows (search_history (db w)) ++ l)%list) /\
        (exists l, rows (download_history d) = (rows (download_history (db w)) ++ l)%list) /\
        (exists l, rows (recently_viewed d) = (rows (recently_viewed (db w)) ++ l)%list))
        (handler StringToNumber r)).
    { destruct r; try discriminate K; cbn [handler];
        unfold upload, favorite_add, unfavorite, update_course, search,
          request_download, download_requests_page, download_action, download,
          request_status, view, toggle_private, log_search, log_view,
          call_classifier, Math_of, select_accepted, select_latest_request,
          select_pdf, select_for_page;
        handler_steps; auto with grows. }
    destruct (preserves_serve w P B) as (G1 & G2 & G3 & G4). auto.
Qed.

(* ===================================================================== *)
(** * More on deletion *)
(* ===================================================================== *)

Lemma delete_steady (s : session) (a : string) (id : Z) (d : database)
    (now : Z) (st : string -> fetched bytes) (cl : bytes -> fetched value) :
  admin s a ->
  serve (delete s id) (steady d now st cl)
    = (Some (Redirect "/admin"), steady (cascade id d) now st cl).
Proof.
  intros A. unfold delete.
  now rewrite (logged_in_requireLogin _ (proj1 A)), (admin_isAdmin _ A).
Qed.

(** X18: the deletion of a document removes that document and the rows
    that reference it, and nothing else: a document, favorite, view,
    download request or download record is in the store afterwards exactly
    when it was there before and does not belong to the deleted id; the
    upload history and the search history are untouched. *)
Theorem delete_removes_exactly (s : session) (a : string) (id : Z)
    (d : database) (now : Z) (st : string -> fetched bytes)
    (cl : bytes -> fetched value) :
  admin s a ->
  let d' := db (snd (serve (delete s id) (steady d now st cl))) in
  (forall p, In p (rows (pdfs d')) <->
             In p (rows (pdfs d)) /\ pdf_id p <> id) /\
  (forall f, In f (rows (favorites d')) <->
             In f (rows (favorites d)) /\ fav_pdf_id f <> id) /\
  (forall v, In v (rows (recently_viewed d')) <->
             In v (rows (recently_viewed d)) /\ rv_pdf_id v <> id) /\
  (forall r, In r (rows (download_requests d')) <->
             In r (rows (download_requests d)) /\ dr_pdf_id r <> id) /\
  (forall h, In h (rows (download_history d')) <->
             In h (rows (download_history d)) /\ dh_pdf_id h <> id) /\
  upload_history d' = upload_history d /\
  search_history d' = search_history d.
Proof.
  intros A d'. unfold d'. rewrite (delete_steady id d now st cl A).
  cbn [snd db steady]. unfold cascade; fields.
  repeat match goal with |- _ /\ _ => split end; try reflexivity;
    intros x; rewrite in_remove, Z.eqb_neq; reflexivity.
Qed.

Lemma filter_twice (A : Type) (g : A -> bool) (l : list A) :
  filter g (filter g l) = filter g l.
Proof.
  induction l as [| x l IH]; cbn; [reflexivity |].
  destruct (g x) eqn:E; cbn; rewrite ?E, IH; reflexivity.
Qed.

Lemma remove_twice (R : Type) (gone : R -> bool) (t : table R) :
  remove gone (remove gone t) = remove gone t.
Proof. unfold remove; cbn. now rewrite filter_twice. Qed.

Lemma remove_none (R : Type) (gone : R -> bool) (t : table R) :
  (forall r, In r (rows t) -> gone r = false) -> remove gone t = t.
Proof.
  intros H. destruct t as [l n]. unfold remove; cbn in *. f_equal.
  induction l as [| x l IH]; cbn; [reflexivity |].
  rewrite (H x (or_introl eq_refl)); cbn. f_equal. apply IH.
  intros r I. apply H. now right.
Qed.

(** X19: deleting a document twice is deleting it once, and deleting a
    document id that no document carries changes nothing in a store that
    satisfies its foreign keys. *)
Theorem delete_is_idempotent (s : session) (a : string) (id : Z)
    (d : database) (t1 t2 : Z) (st : string -> fetched bytes)
    (cl : bytes -> fetched value) :
  admin s a ->
  let once := db (snd (serve (delete s id) (steady d t1 st cl))) in
  let twice := db (snd (serve (delete s id) (steady once t2 st cl))) in
  twice = once /\
  (referential_integrity d -> pdf_exists d id = false -> once = d).
Proof.
  intros A once twice. unfold twice, once.
  rewrite !(delete_steady id _ _ st cl A). cbn [snd db steady]. split.
  - unfold cascade; fields. now rewrite !remove_twice.
  - intros [F V R H] N. destruct d as [P T1 T2 T3 T4 T5 T6].
    unfold cascade; cbn in *.
    assert (K : forall k, pdf_exists
                {| pdfs := P; favorites := T1; recently_viewed := T2;
                   download_requests := T3; download_history := T4;
                   search_history := T5; upload_history := T6 |} k = true ->
                Z.eqb k id = false).
    { intros k X. apply Z.eqb_neq. intros ->. congruence. }
    f_equal; apply remove_none; intros r I; apply K; auto.
    apply pdf_exists_iff. now exists r.
Qed.

(* ===================================================================== *)
(** * Routes that only read *)
(* ===================================================================== *)

(** X20: the routes that answer a question never write.  The
    request-status query, the list of download requests, the
    administrator's page and inline view of a document and the two
    dashboards leave the database as it is, in every world and for every
    session. *)
Theorem reading_routes_do_not_write (s : session) (id : Z) (w : world) :
  db (snd (serve (request_status s id) w)) = db w /\
  db (snd (serve (download_requests_page s) w)) = db w /\
  db (snd (serve (view_admin s id) w)) = db w /\
  db (snd (serve (inline_pdf s id) w)) = db w /\
  db (snd (home s w)) = db w /\
  db (snd (admin_dashboard s w)) = db w.
Proof.
  assert (Q : forall (A : Type) (rows_of : database -> A),
            statement_preserves (fun d => d = db w)
              (fun d _ => Some (rows_of d, d)))
    by (intros; apply statement_preserves_query).
  repeat split.
  - apply (preserves_serve (P := fun d => d = db w)); [| reflexivity].
    unfold request_status, select_latest_request. handler_steps. apply Q.
  - apply (preserves_serve (P := fun d => d = db w)); [| reflexivity].
    unfold download_requests_page, select_for_page. handler_steps. apply Q.
  - apply (preserves_serve (P := fun d => d = db w)); [| reflexivity].
    unfold view_admin, select_pdf, select_for_page. handler_steps; apply Q.
  - apply (preserves_serve (P := fun d => d = db w)); [| reflexivity].
    unfold inline_pdf, select_pdf. handler_steps; apply Q.
  - assert (P : preserves (fun d => d = db w) (home s)).
    { unfold home, select_all_pdfs. handler_steps. apply Q. }
    now apply P.
  - assert (P : preserves (fun d => d = db w) (admin_dashboard s)).
    { unfold admin_dashboard, select_all_pdfs. handler_steps. apply Q. }
    now apply P.
Qed.



(* ===================================================================== *)
(** * The dashboards *)
(* ===================================================================== *)

Lemma in_insert_by_id_desc (p x : pdf) (l : list pdf) :
  In x (insert_by_id_desc p l) <-> x = p \/ In x l.
Proof.
  induction l as [| y l IH]; cbn.
  - intuition congruence.
  - destruct (Z.leb (pdf_id y) (pdf_id p)); cbn.
    + intuition congruence.
    + rewrite IH. intuition congruence.
Qed.

Lemma in_order_by_id_desc (x : pdf) (l : list pdf) :
  In x (order_by_id_desc l) <-> In x l.
Proof.
  induction l as [| y l IH]; cbn; [reflexivity |].
  rewrite in_insert_by_id_desc, IH. intuition congruence.
Qed.

Lemma count_insert_by_id_desc (g : pdf -> bool) (p : pdf) (l : list pdf) :
  List.length (filter g (insert_by_id_desc p l))
    = List.length (filter g (p :: l)).
Proof.
  induction l as [| y l IH]; [reflexivity |].
  cbn [insert_by_id_desc]. destruct (Z.leb (pdf_id y) (pdf_id p)); [reflexivity |].
  cbn [filter] in *. destruct (g y), (g p); cbn [List.length] in *; lia.
Qed.

Lemma count_order_by_id_desc (g : pdf -> bool) (l : list pdf) :
  List.length (filter g (order_by_id_desc l)) = List.length (filter g l).
Proof.
  induction l as [| y l IH]; [reflexivity |].
  unfold order_by_id_desc; cbn [fold_right]. fold (order_by_id_desc l).
  rewrite count_insert_by_id_desc. cbn [filter].
  destruct (g y); cbn [List.length]; now rewrite IH.
Qed.

Lemma length_order_by_id_desc (l : list pdf) :
  List.length (order_by_id_desc l) = List.length l.
Proof.
  pose proof (count_order_by_id_desc (fun _ => true) l) as H.
  assert (T : forall k : list pdf, filter (fun _ => true) k = k).
  { induction k as [| x k IH]; cbn; [reflexivity | now rewrite IH]. }
  now rewrite !T in H.
Qed.

Lemma count_split (g : pdf -> bool) (l : list pdf) :
  (List.length (filter (fun p => negb (g p)) l) + List.length (filter g l)
   = List.length l)%nat.
Proof.
  induction l as [| x l IH]; [reflexivity |].
  cbn [filter]. destruct (g x); cbn [negb List.length]; lia.
Qed.

(** X23: the user dashboard lists the public documents, all of them and
    no private one, and its two counters add up: the number of listed
    documents plus the number of private ones is the number of documents
    in the store.  The administrator is sent to the admin dashboard
    instead. *)
Theorem home_lists_public_documents (s : session) (u : string)
    (d : database) (now : Z) (st : string -> fetched bytes)
    (cl : bytes -> fetched value) :
  logged_in s u ->
  (is_admin_role s = true ->
   home s (steady d now st cl)
     = (Returned (inl (Redirect "/admin")), steady d now st cl)) /\
  (is_admin_role s = false ->
   exists listed total hidden,
     home s (steady d now st cl)
       = (Returned (inr (Index u listed total hidden)), steady d now st cl) /\
     (forall p, In p listed <->
                In p (rows (pdfs d)) /\ is_private p = false) /\
     total = List.length listed /\
     (total + hidden = List.length (rows (pdfs d)))%nat).
Proof.
  intros [Hu Hne]. unfold home. rewrite Hu.
  destruct (String.eqb_spec u EmptyString) as [E | _]; [contradiction |].
  split; intros R; rewrite R; [reflexivity |].
  unfold bind, pool_query, select_all_pdfs.
  cbn [outages steady db clock with_db tl].
  eexists _, _, _. split; [reflexivity |]. split; [| split].
  - intros p. rewrite filter_In, in_order_by_id_desc, negb_true_iff.
    reflexivity.
  - reflexivity.
  - rewrite count_split. apply length_order_by_id_desc.
Qed.

Lemma cluster_counts_sum (l : list pdf) :
  list_sum (cluster_counts l)
    = List.length (filter (fun p => Z.leb 0 (cluster p) && Z.leb (cluster p) 5) l).
Proof.
  unfold cluster_counts. cbn [clusterNames List.length seq map list_sum fold_right].
  induction l as [| x l IH]; [reflexivity |].
  cbn [filter]. cbn [Z.of_nat Pos.of_succ_nat Pos.succ] in *.
  destruct (Z.eqb_spec (cluster x) 0), (Z.eqb_spec (cluster x) 1),
    (Z.eqb_spec (cluster x) 2), (Z.eqb_spec (cluster x) 3),
    (Z.eqb_spec (cluster x) 4), (Z.eqb_spec (cluster x) 5);
    try lia;
    destruct (Z.leb_spec 0 (cluster x)), (Z.leb_spec (cluster x) 5);
    cbn [andb List.length]; lia.
Qed.

(** X24: the admin dashboard shows every document and six counters, one
    per category; the counters add up to the number of documents whose
    category is one of 0..5, hence to the number of documents when every
    category is valid. *)
Theorem admin_dashboard_counts (s : session) (a : string) (d : database)
    (now : Z) (st : string -> fetched bytes) (cl : bytes -> fetched value) :
  admin s a ->
  exists all counts,
    admin_dashboard s (steady d now st cl)
      = (Returned (inr (Admin all a counts)), steady d now st cl) /\
    (forall p, In p all <-> In p (rows (pdfs d))) /\
    List.length counts = 6%nat /\
    list_sum counts
      = List.length (filter (fun p => Z.leb 0 (cluster p) && Z.leb (cluster p) 5)
                            (rows (pdfs d))) /\
    ((forall p, In p (rows (pdfs d)) -> valid_category (cluster p)) ->
     list_sum counts = List.length (rows (pdfs d))).
Proof.
  intros [[Hu Hne] Hr]. unfold admin_dashboard, is_admin_role. rewrite Hu, Hr.
  destruct (String.eqb_spec a EmptyString) as [E | _]; [contradiction |].
  rewrite String.eqb_refl. cbn [orb negb].
  unfold bind, pool_query, select_all_pdfs.
  cbn [outages steady db clock with_db tl].
  eexists _, _. split; [reflexivity |].
  assert (S : list_sum (cluster_counts (order_by_id_desc (rows (pdfs d))))
              = List.length (filter (fun p => Z.leb 0 (cluster p)
                                              && Z.leb (cluster p) 5)
                                    (rows (pdfs d))))
    by (rewrite cluster_counts_sum; apply count_order_by_id_desc).
  split; [| split; [| split]].
  - intros p. apply in_order_by_id_desc.
  - reflexivity.
  - exact S.
  - intros V. rewrite S. f_equal. revert V.
    generalize (rows (pdfs d)). intros l.
    induction l as [| x l IH]; intros V; [reflexivity |].
    cbn [filter]. destruct (V x (or_introl eq_refl)) as [L U].
    rewrite (proj2 (Z.leb_le _ _) L), (proj2 (Z.leb_le _ _) U). cbn [andb].
    f_equal. apply IH. intros p I. apply V. now right.
Qed.

(* ===================================================================== *)
(** * The category of a document, set by hand *)
(* ===================================================================== *)

Lemma update_course_steady (s : session) (a : string) (course : number)
    (id : Z) (d : database) (now : Z) (st : string -> fetched bytes)
    (cl : bytes -> fetched value) :
  admin s a ->
  serve (update_course s course id) (steady d now st cl) =
  match to_int course with
  | Some c =>
      (Some (Redirect "/admin"),
       steady (with_pdfs (update (fun q =>
                 if Z.eqb (pdf_id q) id then
                   {| pdf_id := pdf_id q; title := title q; cluster := c;
                      url := url q; is_private := is_private q;
                      uploader := uploader q; confidence := confidence q;
                      uploaded_at := uploaded_at q |}
                 else q)) d) now st cl)
  | None => (Some (Send "Failed to update course"), steady d now st cl)
  end.
Proof.
  intros A. unfold update_course.
  rewrite (logged_in_requireLogin _ (proj1 A)), (admin_isAdmin _ A).
  unfold serve, try_catch, bind, pool_query, update_cluster.
  cbn [outages steady db clock with_db tl].
  destruct (to_int course); reflexivity.
Qed.

(** X25: the category the administrator sets by hand is stored unchecked.
    When the course parses to an integer of the column's range -- one of
    0..5 or not -- the addressed document carries it afterwards, its other
    fields and every other document are as before, and the administrator
    is sent back to the dashboard; when it does not (parseInt gave NaN,
    or the integer does not fit the column) the answer is 'Failed to update
    course' and the world is as it was. *)
Theorem update_course_is_unchecked (s : session) (a : string)
    (course : number) (id : Z) (p : pdf) (d : database) (now : Z)
    (st : string -> fetched bytes) (cl : bytes -> fetched value) :
  admin s a ->
  document d id = Some p ->
  let answer := serve (update_course s course id) (steady d now st cl) in
  (forall c, to_int course = Some c ->
     fst answer = Some (Redirect "/admin") /\
     (exists p', document (db (snd answer)) id = Some p' /\
        cluster p' = c /\ title p' = title p /\ url p' = url p /\
        is_private p' = is_private p /\ uploader p' = uploader p /\
        confidence p' = confidence p) /\
     (forall q, pdf_id q <> id ->
        (In q (rows (pdfs (db (snd answer)))) <-> In q (rows (pdfs d))))) /\
  (to_int course = None ->
     answer = (Some (Send "Failed to update course"), steady d now st cl)).
Proof.
  intros A D answer. unfold answer.
  rewrite (@update_course_steady s a course id d now st cl A).
  destruct (document_found _ _ D) as (rest & E & I & K).
  split; [| intros ->; reflexivity].
  intros c ->. cbn [fst snd db steady].
  set (g := fun q : pdf =>
         if Z.eqb (pdf_id q) id then
           {| pdf_id := pdf_id q; title := title q; cluster := c;
              url := url q; is_private := is_private q;
              uploader := uploader q; confidence := confidence q;
              uploaded_at := uploaded_at q |}
         else q).
  assert (G : forall q, pdf_id (g q) = pdf_id q).
  { intros q. unfold g. now destruct (Z.eqb (pdf_id q) id). }
  split; [reflexivity |]. split.
  - exists (g p). split.
    + unfold document, with_pdfs, update; cbn [pdfs rows].
      rewrite (filter_map_same_key g id (rows (pdfs d)) G), E. reflexivity.
    + unfold g. rewrite K, Z.eqb_refl. cbn. auto 10.
  - intros q Nq. unfold with_pdfs, update; cbn [pdfs rows].
    rewrite in_map_iff. split.
    + intros (x & Ex & Ix). subst q. rewrite G in Nq.
      unfold g. destruct (Z.eqb_spec (pdf_id x) id); [contradiction | exact Ix].
    + intros Iq. exists q. split; [| exact Iq].
      unfold g. destruct (Z.eqb_spec (pdf_id q) id); [contradiction | reflexivity].
Qed.

(* ===================================================================== *)
(** * The view log of the AJAX route *)
(* ===================================================================== *)


(* ===================================================================== *)
(** * Accounts *)
(* ===================================================================== *)

Section AccountFacts.

Variable bcrypt_hash : string -> string -> string.
Variable bcrypt_compare : string -> string -> bool.

(** X27: what a login grants.  A login that redirects to the dashboard
    found a row of the given name whose stored hash matches the given
    password, and leaves a session of that name whose role is admin exactly
    when the name is "admin", and user otherwise.  A login that fails leaves
    the session as it was and renders the login page; when the query went
    through the message is the same for an unknown name as for a wrong
    password. *)
Theorem login_outcome (users : table user_row) (reached : bool) (s : session)
    (name_given password_given : string) :
  let answer :=
    fst (login bcrypt_compare users reached s name_given password_given) in
  let s' :=
    snd (login bcrypt_compare users reached s name_given password_given) in
  (answer = Go "/" ->
     reached = true /\
     user s' = Some name_given /\
     (role s' = Some "admin" <-> name_given = "admin") /\
     (role s' = Some "user" <-> name_given <> "admin") /\
     exists r, In r (rows users) /\ username r = name_given /\
               bcrypt_compare password_given (password r) = true) /\
  (answer <> Go "/" ->
     s' = s /\
     answer = Page "login"
                (if reached then "Invalid username or password"
                 else "Something went wrong. Please try again.")).
Proof.
  unfold login. destruct reached; cbn zeta.
  2: { cbn [fst snd]. split; [discriminate | intros _; split; reflexivity]. }
  destruct (filter _ (rows users)) as [| found rest] eqn:E.
  { cbn [fst snd]. split; [discriminate | intros _; split; reflexivity]. }
  assert (I : In found (filter (fun r => String.eqb (username r) name_given)
                               (rows users))) by (rewrite E; now left).
  apply filter_In in I. destruct I as [I N]. apply String.eqb_eq in N.
  destruct (bcrypt_compare password_given (password found)) eqn:B.
  2: { cbn [fst snd]. split; [discriminate | intros _; split; reflexivity]. }
  cbn [fst snd user role]. split; [| intros H; now contradiction H].
  intros _. rewrite N. split; [reflexivity |]. split; [reflexivity |].
  destruct (String.eqb_spec name_given "admin") as [A | A].
  - split; [split; auto |]. split; [split; [discriminate | contradiction] |].
    exists found. auto.
  - split; [split; [discriminate | contradiction] |].
    split; [split; auto |]. exists found. auto.
Qed.





End AccountFacts.

(* ===================================================================== *)
(** * What the clamp does to every number *)
(* ===================================================================== *)

(** X30: the two clamps of the upload.  Every category other than NaN --
    the infinities included -- is brought into [0, 5] and every confidence
    other than NaN into [0.1, 1.0]; a value of the range is left as it is;
    clamping twice is clamping once; and NaN goes through both unchanged. *)
Theorem clamp_confines (c f : number) :
  (c <> NaN -> valid_cluster (clamp_cluster c)) /\
  (f <> NaN -> valid_confidence (clamp_confidence f)) /\
  (valid_cluster c -> clamp_cluster c = c) /\
  (valid_confidence f -> clamp_confidence f = f) /\
  clamp (clamp (c, f)) = clamp (c, f) /\
  clamp (NaN, NaN) = (NaN, NaN).
Proof.
  split; [exact (clamp_to_range zero_le_five (n := c)) |].
  split; [exact (clamp_to_range tenth_le_one (n := f)) |].
  split; [exact (clamp_to_id zero_le_five c) |].
  split; [exact (clamp_to_id tenth_le_one f) |].
  split; [apply clamp_idempotent | reflexivity].
Qed.

(* ===================================================================== *)
(** * More scenarios, run *)
(* ===================================================================== *)

Lemma library_pdfs_keyed : keyed pdf_id (pdfs Scenario.library).
Proof.
  split.
  - constructor; [intros [] | constructor].
  - intros r [<- | []]. reflexivity.
Defined.

Lemma thesis_found : document Scenario.library 42 = Some Scenario.thesis.
Proof. reflexivity. Defined.


Lemma bob_logged_in :
  logged_in {| user := Some "bob"; role := Some "user" |} "bob".
Proof. split; [reflexivity | discriminate]. Defined.

Lemma bob_has_none : ~ has_accepted Scenario.library 42 "bob".
Proof.
  intros (r & I & _ & U & _).
  destruct I as [<- | [<- | []]]; discriminate U.
Defined.


(** A download without a session. *)
Lemma anonymous_is_redirected_witness :
  serve (handler Scenario.no_string
           (Download {| user := None; role := None |} 42))
        (steady Scenario.library 30 Scenario.storage_ok
                Scenario.classifier_500)
    = (Some (Redirect "/login"),
       steady Scenario.library 30 Scenario.storage_ok
              Scenario.classifier_500).
Proof.
  apply (@anonymous_is_redirected Scenario.no_string
           (Download {| user := None; role := None |} 42)
           (steady Scenario.library 30 Scenario.storage_ok
                   Scenario.classifier_500)).
  left. reflexivity.
Defined.

(** Alice tries to delete document 42. *)
Lemma admin_routes_are_reserved_witness :
  serve (handler Scenario.no_string (Delete Scenario.alice 42))
        (steady Scenario.library 30 Scenario.storage_ok
                Scenario.classifier_500)
    = (Some (Redirect "/login"),
       steady Scenario.library 30 Scenario.storage_ok
              Scenario.classifier_500).
Proof.
  apply (@admin_routes_are_reserved Scenario.no_string
           (Delete Scenario.alice 42)
           (steady Scenario.library 30 Scenario.storage_ok
                   Scenario.classifier_500)); reflexivity.
Defined.



(** Bob's request is pending, then rejected. *)
Lemma pending_or_rejected_is_denied_witness :
  let bob := {| user := Some "bob"; role := Some "user" |} in
  let requested :=
    db (snd (serve (request_download bob 42)
                   (steady Scenario.library 30 Scenario.storage_ok
                           Scenario.classifier_500))) in
  let rejected :=
    db (snd (serve (download_action Scenario.administrator (Some "rejected") 9)
                   (steady requested 31 Scenario.storage_ok
                           Scenario.classifier_500))) in
  fst (serve (download bob 42)
             (steady requested 32 Scenario.storage_ok Scenario.classifier_500))
    = Some (Send "Not allowed") /\
  fst (serve (download bob 42)
             (steady rejected 32 Scenario.storage_ok Scenario.classifier_500))
    = Some (Send "Not allowed").
Proof.
  exact (@pending_or_rejected_is_denied
           {| user := Some "bob"; role := Some "user" |}
           Scenario.administrator "bob" "admin" 42 Scenario.library 30 31 32
           Scenario.storage_ok Scenario.classifier_500 bob_logged_in
           administrator_admin library_integrity eq_refl bob_has_none).
Defined.




(** Alice marks document 42 and removes the mark. *)
Lemma favorite_then_unfavorite_witness :
  let added :=
    db (snd (serve (favorite_add Scenario.alice 42)
                   (steady Scenario.library 30 Scenario.storage_ok
                           Scenario.classifier_500))) in
  let removed :=
    db (snd (serve (unfavorite Scenario.alice 42)
                   (steady added 31 Scenario.storage_ok
                           Scenario.classifier_500))) in
  rows (favorites removed) =
    filter (fun f => negb (String.eqb (fav_username f) "alice"
                           && Z.eqb (fav_pdf_id f) 42))
           (rows (favorites Scenario.library)) /\
  pdfs removed = pdfs Scenario.library /\
  recently_viewed removed = recently_viewed Scenario.library /\
  download_requests removed = download_requests Scenario.library /\
  download_history removed = download_history Scenario.library /\
  search_history removed = search_history Scenario.library /\
  upload_history removed = upload_history Scenario.library.
Proof.
  exact (@favorite_then_unfavorite Scenario.alice "alice" 42
           Scenario.library 30 31 Scenario.storage_ok
           Scenario.classifier_500 alice_logged_in).
Defined.

(** Alice opens the page of the private document 42. *)
Lemma view_respects_visibility_witness :
  serve (view Scenario.alice 42)
        (steady Scenario.library 30 Scenario.storage_ok
                Scenario.classifier_500)
    = (Some (Send "Access denied"),
       steady Scenario.library 30 Scenario.storage_ok
              Scenario.classifier_500).
Proof.
  apply (proj1 (@view_respects_visibility Scenario.alice "alice" 42
                  Scenario.thesis Scenario.library 30 Scenario.storage_ok
                  Scenario.classifier_500 alice_logged_in thesis_found));
    reflexivity.
Defined.

(** The administrator publishes document 42 and hides it again. *)
Lemma toggle_private_twice_witness :
  let once :=
    db (snd (serve (toggle_private Scenario.administrator 42)
                   (steady Scenario.library 30 Scenario.storage_ok
                           Scenario.classifier_500))) in
  let twice :=
    db (snd (serve (toggle_private Scenario.administrator 42)
                   (steady once 31 Scenario.storage_ok
                           Scenario.classifier_500))) in
  (exists p', document once 42 = Some p' /\
              is_private p' = negb (is_private Scenario.thesis) /\
              title p' = title Scenario.thesis /\
              url p' = url Scenario.thesis /\
              cluster p' = cluster Scenario.thesis) /\
  (forall q, In q (rows (pdfs Scenario.library)) -> pdf_id q <> 42%Z ->
             In q (rows (pdfs once))) /\
  twice = Scenario.library.
Proof.
  exact (@toggle_private_twice Scenario.administrator "admin" 42
           Scenario.thesis Scenario.library 30 31 Scenario.storage_ok
           Scenario.classifier_500 administrator_admin library_pdfs_keyed
           thesis_found).
Defined.



(** The classifier predicts (2, 0.9). *)
Lemma upload_keeps_prediction_witness :
  serve (upload Scenario.no_string Scenario.administrator
                (Some Scenario.new_file) (Some "on"))
        (steady Scenario.library 30 Scenario.storage_ok
                Scenario.classifier_2_09)
    = (Some (Json (JObject
         [("success", JBool true); ("title", JString "new");
          ("cluster", JNumber (of_Z 2));
          ("cluster_name", cluster_name (of_Z 2));
          ("confidence", JNumber (Fin (Q2Qc (9 # 10))));
          ("api_used", JBool true)])),
       steady (with_upload_record "new" 2 "admin" 30
                 (with_document "new" 2
                    "https://storage.example/theses/new.pdf" true "admin"
                    (Fin (Q2Qc (9 # 10))) 30 Scenario.library))
              30 Scenario.storage_ok Scenario.classifier_2_09).
Proof.
  apply (@upload_keeps_prediction Scenario.no_string Scenario.administrator
           "admin" Scenario.new_file (Some "on") Scenario.library 30
           Scenario.storage_ok Scenario.classifier_2_09 200 200
           Scenario.binary
           (JObject
              [("success", JBool true); ("cluster", JNumber (of_Z 2));
               ("confidence", JNumber (Fin (Q2Qc (9 # 10))))])
           2 (Q2Qc (9 # 10)) administrator_admin);
    try reflexivity.
  - discriminate.
  - lia.
  - split; now apply Qle_bool_iff.
Defined.


(** Document 42 is deleted from the library. *)
Lemma delete_removes_exactly_witness :
  let d' := db (snd (serve (delete Scenario.administrator 42)
                           (steady Scenario.library 30 Scenario.storage_ok
                                   Scenario.classifier_500))) in
  (forall p, In p (rows (pdfs d')) <->
             In p (rows (pdfs Scenario.library)) /\ pdf_id p <> 42%Z) /\
  (forall f, In f (rows (favorites d')) <->
             In f (rows (favorites Scenario.library)) /\ fav_pdf_id f <> 42%Z) /\
  (forall v, In v (rows (recently_viewed d')) <->
             In v (rows (recently_viewed Scenario.library))
             /\ rv_pdf_id v <> 42%Z) /\
  (forall r, In r (rows (download_requests d')) <->
             In r (rows (download_requests Scenario.library))
             /\ dr_pdf_id r <> 42%Z) /\
  (forall h, In h (rows (download_history d')) <->
             In h (rows (download_history Scenario.library))
             /\ dh_pdf_id h <> 42%Z) /\
  upload_history d' = upload_history Scenario.library /\
  search_history d' = search_history Scenario.library.
Proof.
  exact (@delete_removes_exactly Scenario.administrator "admin" 42
           Scenario.library 30 Scenario.storage_ok Scenario.classifier_500
           administrator_admin).
Defined.

(** Document 42 is deleted twice. *)
Lemma delete_is_idempotent_witness :
  let once :=
    db (snd (serve (delete Scenario.administrator 42)
                   (steady Scenario.library 30 Scenario.storage_ok
                           Scenario.classifier_500))) in
  let twice :=
    db (snd (serve (delete Scenario.administrator 42)
                   (steady once 31 Scenario.storage_ok
                           Scenario.classifier_500))) in
  twice = once /\
  (referential_integrity Scenario.library ->
   pdf_exists Scenario.library 42 = false -> once = Scenario.library).
Proof.
  exact (@delete_is_idempotent Scenario.administrator "admin" 42
           Scenario.library 30 31 Scenario.storage_ok Scenario.classifier_500
           administrator_admin).
Defined.



(** Alice's dashboard over the library, whose one document is private. *)
Lemma home_lists_public_documents_witness :
  (is_admin_role Scenario.alice = true ->
   home Scenario.alice
        (steady Scenario.library 30 Scenario.storage_ok
                Scenario.classifier_500)
     = (Returned (inl (Redirect "/admin")),
        steady Scenario.library 30 Scenario.storage_ok
               Scenario.classifier_500)) /\
  (is_admin_role Scenario.alice = false ->
   exists listed total hidden,
     home Scenario.alice
          (steady Scenario.library 30 Scenario.storage_ok
                  Scenario.classifier_500)
       = (Returned (inr (Index "alice" listed total hidden)),
          steady Scenario.library 30 Scenario.storage_ok
                 Scenario.classifier_500) /\
     (forall p, In p listed <->
                In p (rows (pdfs Scenario.library)) /\ is_private p = false) /\
     total = List.length listed /\
     (total + hidden = List.length (rows (pdfs Scenario.library)))%nat).
Proof.
  exact (@home_lists_public_documents Scenario.alice "alice" Scenario.library
           30 Scenario.storage_ok Scenario.classifier_500 alice_logged_in).
Defined.

(** The administrator's dashboard over the library. *)
Lemma admin_dashboard_counts_witness :
  exists all counts,
    admin_dashboard Scenario.administrator
        (steady Scenario.library 30 Scenario.storage_ok
                Scenario.classifier_500)
      = (Returned (inr (Admin all "admin" counts)),
         steady Scenario.library 30 Scenario.storage_ok
                Scenario.classifier_500) /\
    (forall p, In p all <-> In p (rows (pdfs Scenario.library))) /\
    List.length counts = 6%nat /\
    list_sum counts
      = List.length (filter (fun p => Z.leb 0 (cluster p) && Z.leb (cluster p) 5)
                            (rows (pdfs Scenario.library))) /\
    ((forall p, In p (rows (pdfs Scenario.library)) ->
                valid_category (cluster p)) ->
     list_sum counts = List.length (rows (pdfs Scenario.library))).
Proof.
  exact (@admin_dashboard_counts Scenario.administrator "admin"
           Scenario.library 30 Scenario.storage_ok Scenario.classifier_500
           administrator_admin).
Defined.

(** The administrator files document 42 under a category 9 that does not
    exist. *)
Lemma update_course_is_unchecked_witness :
  let answer :=
    serve (update_course Scenario.administrator (of_Z 9) 42)
          (steady Scenario.library 30 Scenario.storage_ok
                  Scenario.classifier_500) in
  fst answer = Some (Redirect "/admin") /\
  (exists p', document (db (snd answer)) 42 = Some p' /\
     cluster p' = 9%Z /\ title p' = title Scenario.thesis /\
     url p' = url Scenario.thesis /\
     is_private p' = is_private Scenario.thesis /\
     uploader p' = uploader Scenario.thesis /\
     confidence p' = confidence Scenario.thesis) /\
  (forall q, pdf_id q <> 42%Z ->
     (In q (rows (pdfs (db (snd answer))))
      <-> In q (rows (pdfs Scenario.library)))).
Proof.
  apply (proj1 (@update_course_is_unchecked Scenario.administrator "admin"
                  (of_Z 9) 42 Scenario.thesis Scenario.library 30
                  Scenario.storage_ok Scenario.classifier_500
                  administrator_admin thesis_found) 9%Z).
  reflexivity.
Defined.



